(** * StockPortfolioTracker: a shallow embedding of [script.js]

    The program keeps a list of holdings ([portfolio]), a price cache keyed
    by symbol ([stockData]) and a persisted copy of the holdings.  Numbers are
    JavaScript Numbers, that is IEEE 754 binary64 values: they are modelled by
    Rocq's primitive [float], whose operations round exactly as the
    JavaScript ones do.  Values that come out of [JSON.parse] are modelled by
    an inductive type of JavaScript values, objects being ordered lists of
    own properties. *)

From Stdlib Require Import Floats ZArith QArith Lqa.
From stdpp Require Import gmap strings list.

Close Scope Q_scope.

Set Warnings "-inexact-float,-register-all".

(** ** Outcomes of an evaluation

    [Throw] is a JavaScript exception.  [Unmodelled] marks the two
    conversions the embedding does not compute, the decimal text of a Number
    and the Number a text denotes; it is never caught. *)

Inductive exn : Type := TypeError | SyntaxError | NetworkError.

Inductive result (A : Type) : Type :=
| Ok (a : A)
| Throw (e : exn)
| Unmodelled.

Arguments Ok {A} a.
Arguments Throw {A} e.
Arguments Unmodelled {A}.

Definition rbind {A B : Type} (r : result A) (k : A -> result B) : result B :=
  match r with
  | Ok a => k a
  | Throw e => Throw e
  | Unmodelled => Unmodelled
  end.

Notation "'let?' x ':=' r 'in' k" := (rbind r (fun x => k))
  (at level 10, x name, r at level 100, k at level 200).

(** ** JavaScript values *)

Inductive value : Type :=
| VUndefined
| VNull
| VBool (b : bool)
| VNum (x : float)
| VStr (s : string)
| VArr (elems : list value)
| VObj (props : list (string * value)).

(** Own property [k] of an object, if any. *)
Fixpoint own (k : string) (props : list (string * value)) : option value :=
  match props with
  | [] => None
  | (k', v) :: rest => if String.eqb k' k then Some v else own k rest
  end.

(** [v.k] for a property name [k] that no built-in prototype defines (all the
    names this program reads are such): a TypeError on [undefined] and
    [null], the own property of an object, [undefined] otherwise. *)
Definition get (v : value) (k : string) : result value :=
  match v with
  | VUndefined | VNull => Throw TypeError
  | VObj props => Ok (default VUndefined (own k props))
  | _ => Ok VUndefined
  end.

(** [v[0]]. *)
Definition index0 (v : value) : result value :=
  match v with
  | VUndefined | VNull => Throw TypeError
  | VArr elems => Ok (default VUndefined (head elems))
  | VStr (String c _) => Ok (VStr (String c EmptyString))
  | VObj props => Ok (default VUndefined (own "0" props))
  | _ => Ok VUndefined
  end.

(** [o.k = v] on an object: the property keeps its place when it exists and
    is added last otherwise. *)
Fixpoint set_own (k : string) (v : value) (props : list (string * value))
  : list (string * value) :=
  match props with
  | [] => [(k, v)]
  | (k', v') :: rest =>
      if String.eqb k' k then (k', v) :: rest else (k', v') :: set_own k v rest
  end.

Definition assign (o : value) (k : string) (v : value) : value :=
  match o with
  | VObj props => VObj (set_own k v props)
  | _ => o
  end.

(** ToBoolean. *)
Definition truthy (v : value) : bool :=
  match v with
  | VUndefined | VNull => false
  | VBool b => b
  | VNum x => negb (is_zero x || is_nan x)
  | VStr s => negb (String.eqb s "")
  | VArr _ | VObj _ => true
  end.

(** [a && b]. *)
Definition js_and (a : value) (b : result value) : result value :=
  if truthy a then b else Ok a.

(** [v === s] for a string [s]. *)
Definition strict_eq_str (v : value) (s : string) : bool :=
  match v with
  | VStr s' => String.eqb s' s
  | _ => false
  end.

(** ToString.  A parsed object is turned into text by [Object.prototype.toString]
    unless it has an own (hence not callable) [toString], in which case the
    conversion throws; an array joins the texts of its elements. *)
Fixpoint ToString (v : value) : result string :=
  match v with
  | VUndefined => Ok "undefined"
  | VNull => Ok "null"
  | VBool true => Ok "true"
  | VBool false => Ok "false"
  | VNum _ => Unmodelled
  | VStr s => Ok s
  | VArr elems =>
      (fix join (l : list value) : result string :=
         match l with
         | [] => Ok ""
         | e :: l' =>
             let? s := match e with
                       | VUndefined | VNull => Ok ""
                       | _ => ToString e
                       end in
             match l' with
             | [] => Ok s
             | _ => let? t := join l' in Ok (s ++ "," ++ t)
             end
         end) elems
  | VObj props =>
      match own "toString" props with
      | Some _ => Throw TypeError
      | None => Ok "[object Object]"
      end
  end%string.

(** ToPrimitive. *)
Definition ToPrimitive (v : value) : result value :=
  match v with
  | VArr _ | VObj _ => let? s := ToString v in Ok (VStr s)
  | _ => Ok v
  end.

(** ToNumber. *)
Definition ToNumber (v : value) : result float :=
  let? p := ToPrimitive v in
  match p with
  | VUndefined => Ok nan
  | VNull => Ok 0%float
  | VBool true => Ok 1%float
  | VBool false => Ok 0%float
  | VNum x => Ok x
  | _ => Unmodelled
  end.

(** The arithmetic operators [*], [-], [/] and the comparison [v > 0]. *)
Definition js_mul (a b : value) : result float :=
  let? x := ToNumber a in let? y := ToNumber b in Ok (x * y)%float.

Definition js_sub (a b : value) : result float :=
  let? x := ToNumber a in let? y := ToNumber b in Ok (x - y)%float.

Definition js_div (a b : value) : result float :=
  let? x := ToNumber a in let? y := ToNumber b in Ok (x / y)%float.

Definition js_gt0 (a : value) : result bool :=
  let? x := ToNumber a in Ok (0 <? x)%float.

(** [a + b]: concatenation as soon as one operand is a text. *)
Definition js_add (a b : value) : result value :=
  let? pa := ToPrimitive a in
  let? pb := ToPrimitive b in
  match pa, pb with
  | VStr _, _ | _, VStr _ =>
      let? s := ToString pa in let? t := ToString pb in Ok (VStr (s ++ t))
  | _, _ =>
      let? x := ToNumber pa in let? y := ToNumber pb in Ok (VNum (x + y)%float)
  end.

(** [x.toFixed(2)], for the Number it shows: only a Number has the method. *)
Definition toFixed (v : value) : result float :=
  match v with
  | VNum x => Ok x
  | _ => Throw TypeError
  end.

(** A template literal [`${v}`] used for display: the text is discarded, the
    exception is not. *)
Definition interpolate (v : value) : result unit :=
  match v with
  | VNum _ => Ok tt
  | _ => let? _ := ToString v in Ok tt
  end.

(** ** JSON text

    The text of a file or of the persisted blob is either the serialisation of
    a JSON document, identified with the value [JSON.parse] returns for it, or
    a text [JSON.parse] rejects. *)

Inductive file_text : Type :=
| JSON (doc : value)
| NotJSON.

Definition JSON_parse (t : file_text) : result value :=
  match t with
  | JSON doc => Ok doc
  | NotJSON => Throw SyntaxError
  end.

(** The document [JSON.stringify] writes for a Number: [null] when it is
    not finite, and no sign on zero. *)
Definition json_number (x : float) : value :=
  if is_nan x || is_infinity x then VNull
  else if is_zero x then VNum 0
  else VNum x.

(** The document [JSON.stringify] writes for a value: an [undefined] element
    becomes [null], an [undefined] property is left out. *)
Fixpoint to_json (v : value) : value :=
  match v with
  | VUndefined => VNull
  | VNum x => json_number x
  | VArr elems => VArr (List.map to_json elems)
  | VObj props =>
      VObj ((fix members (ps : list (string * value)) : list (string * value) :=
               match ps with
               | [] => []
               | (_, VUndefined) :: rest => members rest
               | (k, v') :: rest => (k, to_json v') :: members rest
               end) props)
  | _ => v
  end.

Definition JSON_stringify (v : value) : file_text := JSON (to_json v).

(** ** Program state *)

(** Asynchronous functions called without [await]: they run later. *)
Inductive task : Type :=
| FetchOne (symbol : value)
| FetchAll.

(** What an awaited run does to the outside world. *)
Inductive event : Type :=
| EvRequest (symbol : string)   (* [fetch(proxyUrl)] for that symbol *)
| EvSettled (symbol : string)   (* its promise fulfilled or rejected *)
| EvDelay (ms : Z).             (* [setTimeout(r, ms)] awaited *)

(** The cache is the object [stockData] used as a map from symbols to
    records; symbols are taken not to name a member of [Object.prototype]
    (the form puts tickers in upper case). *)
Record State : Type := mkState {
  portfolio : list value;             (* [let portfolio] *)
  stockData : gmap string value;      (* [let stockData = {}] *)
  localStorage : option file_text;    (* item ['portfolio'] *)
  started : list task;
  trace : list event
}.

Definition set_portfolio (p : list value) (st : State) : State :=
  mkState p (stockData st) (localStorage st) (started st) (trace st).
Definition set_stockData (c : gmap string value) (st : State) : State :=
  mkState (portfolio st) c (localStorage st) (started st) (trace st).
Definition set_localStorage (t : file_text) (st : State) : State :=
  mkState (portfolio st) (stockData st) (Some t) (started st) (trace st).
Definition spawn_task (t : task) (st : State) : State :=
  mkState (portfolio st) (stockData st) (localStorage st) (started st ++ [t]) (trace st).
Definition log_event (e : event) (st : State) : State :=
  mkState (portfolio st) (stockData st) (localStorage st) (started st) (trace st ++ [e]).

(** ** Statements: state and exceptions

    A statement runs from a state and ends in a state with an outcome; what it
    wrote before throwing stays written. *)

Definition M (A : Type) : Type := State -> result A * State.

Definition ret {A : Type} (a : A) : M A := fun st => (Ok a, st).

Definition bind {A B : Type} (m : M A) (k : A -> M B) : M B :=
  fun st =>
    match m st with
    | (Ok a, st') => k a st'
    | (Throw e, st') => (Throw e, st')
    | (Unmodelled, st') => (Unmodelled, st')
    end.

Notation "'let*' x ':=' m 'in' k" := (bind m (fun x => k))
  (at level 10, x name, m at level 100, k at level 200).
Notation "m ';;' k" := (bind m (fun _ => k))
  (at level 100, k at level 200, right associativity).

Definition lift {A : Type} (r : result A) : M A := fun st => (r, st).
Definition gets {A : Type} (f : State -> A) : M A := fun st => (Ok (f st), st).
Definition modify (f : State -> State) : M unit := fun st => (Ok tt, f st).

(** [try { m } catch (error) { h }]. *)
Definition try_catch {A : Type} (m : M A) (h : exn -> M A) : M A :=
  fun st =>
    match m st with
    | (Throw e, st') => h e st'
    | other => other
    end.

(** [l.every(p)]. *)
Fixpoint every {A : Type} (p : A -> result bool) (l : list A) : result bool :=
  match l with
  | [] => Ok true
  | x :: l' => let? b := p x in if b then every p l' else Ok false
  end.

(** [l.filter(p)]. *)
Fixpoint filterR {A : Type} (p : A -> result bool) (l : list A) : result (list A) :=
  match l with
  | [] => Ok []
  | x :: l' =>
      let? b := p x in
      let? r := filterR p l' in
      Ok (if b then x :: r else r)
  end.

(** [l.find(s => s.symbol === symbol)], as the index of the element found:
    the caller writes through the reference it gets. *)
Fixpoint find_symbol (symbol : string) (l : list value) : result (option nat) :=
  match l with
  | [] => Ok None
  | s :: l' =>
      let? sym := get s "symbol" in
      if strict_eq_str sym symbol then Ok (Some 0)
      else let? r := find_symbol symbol l' in Ok (S <$> r)
  end.

(** ** The program *)

(** [saveData]. *)
Definition saveData : M unit :=
  let* p := gets portfolio in
  modify (set_localStorage (JSON_stringify (VArr p))).

(** A row of the table, for its three computed cells and the class of the
    last one. *)
Inductive plClass : Type := neutral | positive | negative.

Record Row : Type := mkRow {
  priceCell : option float;   (* [None]: 'Loading...' *)
  valueCell : option float;   (* [None]: '-' *)
  plCell : option float;      (* [None]: '-' *)
  plClassOf : plClass
}.

(** The body of [renderTable]'s loop. *)
Definition renderRow (cache : gmap string value) (stock : value) : result Row :=
  let? sym := get stock "symbol" in
  let? key := ToString sym in
  let data :=
    match cache !! key with
    | Some d => if truthy d then d
                else VObj [("price", VNum 0); ("change", VNum 0)]
    | None => VObj [("price", VNum 0); ("change", VNum 0)]
    end%string in
  let? currentPrice := get data "price" in
  let? priced := js_gt0 currentPrice in
  let? qty := get stock "qty" in
  let? currentValue := if priced then js_mul currentPrice qty else Ok 0%float in
  let? cost := get stock "cost" in
  let? totalCost := js_mul cost qty in
  let pl := if priced then (currentValue - totalCost)%float else 0%float in
  let class := if priced then (if (0 <=? pl)%float then positive else negative)
               else neutral in
  let? _ := interpolate sym in
  let? _ := interpolate qty in
  let? _ := toFixed cost in
  let? shown := if priced then (let? x := toFixed currentPrice in Ok (Some x))
                else Ok None in
  Ok (mkRow shown
            (if (0 <? currentValue)%float then Some currentValue else None)
            (if priced then Some pl else None)
            class).

(** [l.forEach(f)], for what [f] builds. *)
Fixpoint forEach {A B : Type} (f : A -> result B) (l : list A) : result (list B) :=
  match l with
  | [] => Ok []
  | x :: l' => let? y := f x in let? r := forEach f l' in Ok (y :: r)
  end.

(** [renderTable]: the rows go to the page. *)
Definition renderTable : M unit :=
  let* p := gets portfolio in
  let* cache := gets stockData in
  let* _ := lift (forEach (renderRow cache) p) in
  ret tt.

(** The figures [updateSummary] derives. *)
Record Summary : Type := mkSummary {
  totalInv : float;
  currentVal : float;
  hasData : bool;
  totalPl : float;
  totalPlPercent : float
}.

(** The body of [updateSummary]'s loop on [(totalInv, currentVal, hasData)]. *)
Definition summaryStep (cache : gmap string value)
    (acc : float * float * bool) (stock : value) : result (float * float * bool) :=
  let '(inv, cur, has) := acc in
  let? qty := get stock "qty" in
  let? cost := get stock "cost" in
  let? invested := js_mul qty cost in
  let inv' := (inv + invested)%float in
  let? sym := get stock "symbol" in
  let? key := ToString sym in
  let? price :=
    match cache !! key with
    | Some d => if truthy d then get d "price" else Ok (VNum 0)
    | None => Ok (VNum 0)
    end in
  let? priced := js_gt0 price in
  if priced then
    let? qty' := get stock "qty" in
    let? value := js_mul qty' price in
    Ok (inv', (cur + value)%float, true)
  else Ok (inv', cur, has).

Fixpoint summaryLoop (cache : gmap string value)
    (acc : float * float * bool) (stocks : list value) : result (float * float * bool) :=
  match stocks with
  | [] => Ok acc
  | stock :: rest =>
      let? acc' := summaryStep cache acc stock in
      summaryLoop cache acc' rest
  end.

Definition summarize (p : list value) (cache : gmap string value) : result Summary :=
  let? acc := summaryLoop cache (0%float, 0%float, false) p in
  let '(inv, cur, has) := acc in
  let pl := (cur - inv)%float in
  let pct := if (0 <? inv)%float then (pl / inv * 100)%float else 0%float in
  Ok (mkSummary inv cur has pl pct).

(** [updateSummary]: the figures are written to the page. *)
Definition updateSummary : M unit :=
  let* p := gets portfolio in
  let* cache := gets stockData in
  let* _ := lift (summarize p cache) in
  ret tt.

(** [addStock]. *)
Definition addStock (symbol : string) (qty cost : float) : M unit :=
  let* p := gets portfolio in
  let* existing := lift (find_symbol symbol p) in
  match existing with
  | Some i =>
      let ex := default VUndefined (p !! i) in
      let* exQty := lift (get ex "qty") in
      let* exCost := lift (get ex "cost") in
      let* held := lift (js_mul exQty exCost) in
      let totalCostCoordinates := (held + qty * cost)%float in
      let* totalQty := lift (js_add exQty (VNum qty)) in
      let* avg := lift (js_div (VNum totalCostCoordinates) totalQty) in
      modify (set_portfolio
                (<[i := assign (assign ex "cost" (VNum avg)) "qty" totalQty]> p))
  | None =>
      modify (set_portfolio
                (p ++ [VObj [("symbol", VStr symbol); ("qty", VNum qty);
                             ("cost", VNum cost)]]))
  end%string;;
  saveData;;
  renderTable;;
  modify (spawn_task (FetchOne (VStr symbol))).

(** [deleteStock]. *)
Definition deleteStock (symbol : string) : M unit :=
  let* p := gets portfolio in
  let* kept := lift (filterR (fun s => let? sym := get s "symbol" in
                                       Ok (negb (strict_eq_str sym symbol))) p) in
  modify (set_portfolio kept);;
  saveData;;
  renderTable;;
  updateSummary.

(** The form's submit handler, from the values it reads: the trimmed upper-case
    ticker and the two Numbers [parseFloat] returned. *)
Inductive submission : Type :=
| Added          (* [addStock] ran and the form was reset *)
| InvalidInput.  (* the validation failed: nothing is done *)

Definition form_submit (ticker : string) (quantity cost : float) : M submission :=
  if negb (String.eqb ticker "") && (0 <? quantity)%float && (0 <=? cost)%float
  then addStock ticker quantity cost;; ret Added
  else ret InvalidInput.

(** The record [fetchStockData] builds from the parsed body of the response
    (the statements between the two awaits and the write to the cache). *)
Definition quoteRecord (json : value) : result value :=
  let? chart := get json "chart" in
  let? results := get chart "result" in
  let? result := index0 results in
  let? meta := get result "meta" in
  let? currentPrice := get meta "regularMarketPrice" in
  let? previousClose := get meta "chartPreviousClose" in
  let? change := js_sub currentPrice previousClose in
  let? timestamp := get result "timestamp" in
  let? indicators := get result "indicators" in
  let? quote := get indicators "quote" in
  let? quote0 := index0 quote in
  let? close := get quote0 "close" in
  Ok (VObj [("price", currentPrice); ("change", VNum change);
            ("history", VObj [("timestamp", timestamp); ("close", close)])])%string.

(** [fetchStockData], given what the awaited [fetch] and [response.json()]
    produce: the parsed body, or the exception of a failed request or of a
    body that is not JSON.  The chart refresh that ends the function only
    draws.  The catch block logs a message that names the symbol again, so
    a symbol whose conversion to text throws makes the function throw. *)
Definition fetchStockData (symbol : value) (response : result value) : M unit :=
  try_catch
    (let* key := lift (ToString symbol) in
     modify (log_event (EvRequest key));;
     modify (log_event (EvSettled key));;
     let* json := lift response in
     let* record := lift (quoteRecord json) in
     let* cache := gets stockData in
     modify (set_stockData (<[key := record]> cache));;
     renderTable;;
     updateSummary)
    (fun _ => lift (interpolate symbol)).

(** [fetchAllData]: [responses n] is what the [n]-th request of the run
    produces. *)
Fixpoint fetchAllLoop (responses : nat -> result value) (n : nat)
    (stocks : list value) : M unit :=
  match stocks with
  | [] => ret tt
  | stock :: rest =>
      let* symbol := lift (get stock "symbol") in
      fetchStockData symbol (responses n);;
      modify (log_event (EvDelay 500));;
      fetchAllLoop responses (S n) rest
  end.

Definition fetchAllData (responses : nat -> result value) : M unit :=
  let* p := gets portfolio in
  fetchAllLoop responses 0 p.

(** The export button's handler: the text of the file it offers, if any. *)
Definition export_click (st : State) : option file_text :=
  match portfolio st with
  | [] => None                                   (* 'No data to export!' *)
  | p => Some (JSON_stringify (VArr p))
  end.

(** What the import handler tells the user. *)
Inductive import_outcome : Type :=
| Restored        (* 'Portfolio restored successfully!' *)
| Declined        (* the confirmation was refused: no message *)
| SchemaError     (* 'Invalid file format: Missing required fields.' *)
| NotAList        (* 'Invalid file format: Not a list of stocks.' *)
| MalformedFile.  (* 'Error parsing JSON file.' *)

(** [item => item.symbol && item.qty && item.cost]. *)
Definition validItem (item : value) : result bool :=
  let? symbol := get item "symbol" in
  let? both := js_and symbol (get item "qty") in
  let? all := js_and both (get item "cost") in
  Ok (truthy all).

(** The file reader's [onload] handler of the import input, given the text
    read and the user's answer to the confirmation. *)
Definition import_onload (text : file_text) (confirmed : bool) : M import_outcome :=
  try_catch
    (let* importedData := lift (JSON_parse text) in
     match importedData with
     | VArr items =>
         let* valid := lift (every validItem items) in
         if valid then
           if confirmed then
             modify (set_portfolio items);;
             saveData;;
             renderTable;;
             updateSummary;;
             modify (spawn_task FetchAll);;
             ret Restored
           else ret Declined
         else ret SchemaError
     | _ => ret NotAList
     end)
    (fun _ => ret MalformedFile).

(** ** Well-typed ledgers

    A Position as the program creates it: [{ symbol, qty, cost }] with a text
    and two Numbers. *)

Record Position : Type := mkPosition {
  symbol : string;
  qty : float;
  cost : float
}.

Definition stock_of (p : Position) : value :=
  VObj [("symbol", VStr (symbol p)); ("qty", VNum (qty p)); ("cost", VNum (cost p))]%string.

(** The Position for [sym] that [find] returns is the first one. *)
Definition first_at (sym : string) (ps : list Position) (i : nat) (p : Position) : Prop :=
  ps !! i = Some p /\ symbol p = sym /\
  forall j p', j < i -> ps !! j = Some p' -> symbol p' <> sym.

(** The weighted-average rule of the specification, for any arithmetic:
    a holding [(q0, c0)] merged with [(q, c)]. *)
Section WeightedAverage.
Context {num : Type} (add mul div : num -> num -> num).

Definition weightedAverage (held m : num * num) : num * num :=
  (add (fst held) (fst m),
   div (add (mul (fst held) (snd held)) (mul (fst m) (snd m)))
       (add (fst held) (fst m))).

End WeightedAverage.

(** The rule in the program's arithmetic. *)
Definition merged (p : Position) (m : float * float) : Position :=
  let r := weightedAverage PrimFloat.add PrimFloat.mul PrimFloat.div (qty p, cost p) m in
  mkPosition (symbol p) (fst r) (snd r).

(** The rule in exact arithmetic, with the quantity and the cost basis of a
    list of merges. *)
Definition mergedExact : Q * Q -> Q * Q -> Q * Q := weightedAverage Qplus Qmult Qdiv.

Definition shares (ms : list (Q * Q)) : Q :=
  fold_right (fun m acc => fst m + acc)%Q 0%Q ms.

Definition basis (ms : list (Q * Q)) : Q :=
  fold_right (fun m acc => fst m * snd m + acc)%Q 0%Q ms.

(** Successive submissions of merges for one symbol, each one a run of
    [addStock] from the state the previous one left. *)
Definition addStocks (sym : string) (ms : list (float * float)) (st : State) : State :=
  fold_left (fun s m => snd (addStock sym (fst m) (snd m) s)) ms st.

Definition emptyState : State := mkState [] ∅ None [] [].

(** A cache record as [fetchStockData] writes it, for a provider whose price
    is a Number or is missing. *)
Record PriceRecord : Type := mkPriceRecord {
  price : option float;
  change : float;
  timestamp : value;
  close : value
}.

Definition record_of (r : PriceRecord) : value :=
  VObj [("price", match price r with Some x => VNum x | None => VUndefined end);
        ("change", VNum (change r));
        ("history", VObj [("timestamp", timestamp r); ("close", close r)])]%string.

(** ** The valuation the specification describes

    A price is usable when the cache holds one for the symbol and it is
    strictly positive. *)
Definition usable (prices : gmap string PriceRecord) (sym : string) : option float :=
  match prices !! sym with
  | Some r =>
      match price r with
      | Some x => if (0 <? x)%float then Some x else None
      | None => None
      end
  | None => None
  end.

Definition invested (ps : list Position) : float :=
  fold_left (fun acc p => acc + qty p * cost p)%float ps 0%float.

Definition currentValue (prices : gmap string PriceRecord) (ps : list Position) : float :=
  fold_left (fun acc p => match usable prices (symbol p) with
                          | Some x => (acc + qty p * x)%float
                          | None => acc
                          end) ps 0%float.

Definition hasAnyPriceData (prices : gmap string PriceRecord) (ps : list Position) : bool :=
  existsb (fun p => match usable prices (symbol p) with
                    | Some _ => true
                    | None => false
                    end) ps.

Definition summarize_spec (ps : list Position) (prices : gmap string PriceRecord) : Summary :=
  let inv := invested ps in
  let cur := currentValue prices ps in
  let pl := (cur - inv)%float in
  mkSummary inv cur (hasAnyPriceData prices ps) pl
            (if (0 <? inv)%float then (pl / inv * 100)%float else 0%float).

(** A body of the shape the provider answers with: one result with its
    metadata, its timestamps and one quote. *)
Definition chartBody (currentPrice previousClose : float) (timestamps closes : value) : value :=
  VObj [("chart",
         VObj [("result",
                VArr [VObj [("meta", VObj [("regularMarketPrice", VNum currentPrice);
                                           ("chartPreviousClose", VNum previousClose)]);
                            ("timestamp", timestamps);
                            ("indicators",
                             VObj [("quote", VArr [VObj [("close", closes)]])])]]);
               ("error", VNull)])]%string.

(** A parsed body from which the reads of [fetchStockData] succeed and find the
    Numbers [currentPrice] and [previousClose] and the two series. *)
Definition provides (json : value) (currentPrice previousClose : float)
    (timestamps closes : value) : Prop :=
  exists chart results result meta indicators quote quote0,
    get json "chart" = Ok chart /\
    get chart "result" = Ok results /\
    index0 results = Ok result /\
    get result "meta" = Ok meta /\
    get meta "regularMarketPrice" = Ok (VNum currentPrice) /\
    get meta "chartPreviousClose" = Ok (VNum previousClose) /\
    get result "timestamp" = Ok timestamps /\
    get result "indicators" = Ok indicators /\
    get indicators "quote" = Ok quote /\
    index0 quote = Ok quote0 /\
    get quote0 "close" = Ok closes.

(** What a response leads [fetchStockData] to write: a well-typed record, or
    nothing because the request, the parsing of the body or the reading of
    its fields threw. *)
Definition answers (response : result value) (o : option PriceRecord) : Prop :=
  match o with
  | Some r => (let? json := response in quoteRecord json) = Ok (record_of r)
  | None => exists e, (let? json := response in quoteRecord json) = Throw e
  end.

(** The cache a run of [fetchAllData] should leave: each Position whose
    request was answered has its record replaced, in ledger order. *)
Fixpoint refreshed (outcomes : nat -> option PriceRecord) (n : nat)
    (ps : list Position) (prices : gmap string PriceRecord) : gmap string PriceRecord :=
  match ps with
  | [] => prices
  | p :: rest =>
      refreshed outcomes (S n) rest
                (match outcomes n with
                 | Some r => <[symbol p := r]> prices
                 | None => prices
                 end)
  end.

(** The requests and delays of a run of [fetchAllData]. *)
Definition batchTrace (ps : list Position) : list event :=
  flat_map (fun p => [EvRequest (symbol p); EvSettled (symbol p); EvDelay 500]) ps.

(** Readings of a trace: the symbols requested, in order; the requests not
    yet settled at its end; the time spent in awaited delays. *)
Fixpoint requested (t : list event) : list string :=
  match t with
  | [] => []
  | EvRequest s :: t' => s :: requested t'
  | _ :: t' => requested t'
  end.

Fixpoint inFlight (t : list event) : Z :=
  match t with
  | [] => 0
  | EvRequest _ :: t' => inFlight t' + 1
  | EvSettled _ :: t' => inFlight t' - 1
  | EvDelay _ :: t' => inFlight t'
  end.

Fixpoint waited (t : list event) : Z :=
  match t with
  | [] => 0
  | EvDelay ms :: t' => ms + waited t'
  | _ :: t' => waited t'
  end.

(** The ledger and the cache of the examples. *)
Definition aapl : Position := mkPosition "AAPL" 10 150.
Definition msft : Position := mkPosition "MSFT" 2 300.
Definition aaplQuoted : gmap string value :=
  record_of <$> {["AAPL"%string := mkPriceRecord (Some 180%float) 5 VUndefined VUndefined]}.

Definition goog : Position := mkPosition "GOOG" 1 140.

(** Three requests of which the second fails. *)
Definition secondFails (n : nat) : result value :=
  match n with
  | 0 => Ok (chartBody 182 175 (VArr []) (VArr []))
  | 1 => Throw NetworkError
  | _ => Ok (chartBody 141 139 (VArr []) (VArr []))
  end.

Definition secondFailed (n : nat) : option PriceRecord :=
  match n with
  | 0 => Some (mkPriceRecord (Some 182%float) 7 (VArr []) (VArr []))
  | 1 => None
  | _ => Some (mkPriceRecord (Some 141%float) 2 (VArr []) (VArr []))
  end.

(** A Position the form accepts and a JSON document can hold: a symbol, and a
    finite quantity and a finite cost, both above 0. *)
Definition exportable (p : Position) : Prop :=
  symbol p <> ""%string /\
  is_finite (qty p) = true /\ (0 <? qty p)%float = true /\
  is_finite (cost p) = true /\ (0 <? cost p)%float = true.

(** A Position bought at no cost. *)
Definition gift : Position := mkPosition "AAPL" 10 0.

(** A cache with a record for MSFT, and a body that has everything but the
    price. *)
Definition msftQuoted : gmap string value :=
  record_of <$> {["MSFT"%string := mkPriceRecord (Some 300%float) 5 VUndefined VUndefined]}.

Definition pricelessBody : value :=
  VObj [("chart",
         VObj [("result",
                VArr [VObj [("meta", VObj [("chartPreviousClose", VNum 295)]);
                            ("timestamp", VArr []);
                            ("indicators",
                             VObj [("quote", VArr [VObj [("close", VArr [])]])])]]);
               ("error", VNull)])]%string.

Definition alwaysPriceless (n : nat) : result value := Ok pricelessBody.

(** A statement leaves the component [f] of the state as it found it. *)
Definition preserves {A B : Type} (f : State -> B) (m : M A) : Prop :=
  forall st, f (snd (m st)) = f st.

(** ** The rest of the program *)

(** The value [portfolio] starts with:
    [JSON.parse(localStorage.getItem('portfolio')) || []].  A missing item
    reads as [null], which parses to [null]. *)
Definition loadPortfolio (stored : option file_text) : result value :=
  match stored with
  | None => Ok (VArr [])
  | Some text => let? v := JSON_parse text in Ok (if truthy v then v else VArr [])
  end.

(** The [DOMContentLoaded] handler. *)
Definition DOMContentLoaded : M unit :=
  renderTable;;
  updateSummary;;
  let* p := gets portfolio in
  if (0 <? length p)%nat then modify (spawn_task FetchAll) else ret tt.

(** The loop of [loadChart] over the indices of [timestamps], from index [i]:
    a point is kept when [prices[i]] is neither [null] nor [undefined]; its
    label is drawn from the date at [timestamps[i] * 1000] milliseconds, the
    Number kept here. *)
Fixpoint cleanSeries (prices : list value) (i : nat) (timestamps : list value)
  : result (list float * list value) :=
  match timestamps with
  | [] => Ok ([], [])
  | t :: rest =>
      match prices !! i with
      | None | Some VNull | Some VUndefined => cleanSeries prices (S i) rest
      | Some price =>
          let? ms := js_mul t (VNum 1000) in
          let? r := cleanSeries prices (S i) rest in
          Ok (ms :: fst r, price :: snd r)
      end
  end.

(** The labels and data [loadChart] draws from a history, [timestamps] and
    [prices] being truthy: a value with no [length] gives no point. *)
Definition chartSeries (timestamps prices : value) : result (list float * list value) :=
  match timestamps, prices with
  | VArr ts, VArr ps => cleanSeries ps 0 ts
  | VArr ts, (VNum _ | VBool _) => cleanSeries [] 0 ts
  | (VNum _ | VBool _), _ => Ok ([], [])
  | _, _ => Unmodelled
  end.

(** [loadChart], given what its request would produce: the series handed to
    [renderChart], or [None] when it returns without drawing. *)
Definition loadChart (symbol : value) (response : result value)
  : M (option (list float * list value)) :=
  let* key := lift (ToString symbol) in
  let* cache := gets stockData in
  let* missing :=
    lift (match cache !! key with
          | Some d => if truthy d
                      then let? h := get d "history" in Ok (negb (truthy h))
                      else Ok true
          | None => Ok true
          end) in
  (if missing then fetchStockData symbol response else ret tt);;
  let* cache' := gets stockData in
  match cache' !! key with
  | Some data =>
      if truthy data then
        let* history := lift (get data "history") in
        if truthy history then
          let* timestamps := lift (get history "timestamp") in
          let* prices := lift (get history "close") in
          let* series := lift (if truthy timestamps && truthy prices
                               then chartSeries timestamps prices
                               else Ok ([], [])) in
          ret (Some series)
        else ret None
      else ret None
  | None => ret None
  end.

(** ** Further readings of the specification *)

(** The ledger after a merge for [sym]: the first Position of the symbol
    takes the merge, or a new Position comes last. *)
Fixpoint mergeInto (sym : string) (m : float * float) (ps : list Position) : list Position :=
  match ps with
  | [] => [mkPosition sym (fst m) (snd m)]
  | p :: rest =>
      if String.eqb (symbol p) sym then merged p m :: rest
      else p :: mergeInto sym m rest
  end.

(** The ledger without the Positions of [sym]. *)
Definition without (sym : string) (ps : list Position) : list Position :=
  List.filter (fun p => negb (String.eqb (symbol p) sym)) ps.

(** What a reload of the page would start from is the ledger, as JSON
    writes it. *)
Definition reloads (st : State) : Prop :=
  loadPortfolio (localStorage st) = Ok (to_json (VArr (portfolio st))).

(** A Position whose Numbers JSON writes as they are: finite, the quantity
    above 0, the cost above 0 or 0. *)
Definition storable (p : Position) : Prop :=
  is_finite (qty p) = true /\ (0 <? qty p)%float = true /\
  is_finite (cost p) = true /\ ((0 <? cost p)%float = true \/ cost p = 0%float).

(** A kept point of a chart. *)
Definition drawable (v : value) : Prop := v <> VNull /\ v <> VUndefined.

(** A statement keeps the property [P] of the state. *)
Definition keeps {A : Type} (P : State -> Prop) (m : M A) : Prop :=
  forall st, P st -> P (snd (m st)).

(** A statement that writes, if at all, as its last step: when it does not
    return normally the state is as it was. *)
Definition writesLast {A : Type} (m : M A) : Prop :=
  forall st, (exists a st', m st = (Ok a, st')) \/ snd (m st) = st.

Definition isDrawable (v : value) : bool :=
  match v with
  | VNull | VUndefined => false
  | _ => true
  end.

(** The points of a chart: the timestamps paired with the prices from index
    [i] on, without the pairs whose price is [null] or [undefined]. *)
Definition chartPoints (ts : list float) (i : nat) (prices : list value)
  : list (float * value) :=
  List.filter (fun tp => isDrawable (snd tp)) (zip ts (drop i prices)).

(** ** Frame lemmas: what a statement leaves alone *)

Section Frame.
Context {C : Type} (f : State -> C).

Lemma preserves_ret {A} (a : A) : preserves f (ret a).
Proof. intros st. reflexivity. Qed.

Lemma preserves_lift {A} (r : result A) : preserves f (lift r).
Proof. intros st. reflexivity. Qed.

Lemma preserves_gets {A} (g : State -> A) : preserves f (gets g).
Proof. intros st. reflexivity. Qed.

Lemma preserves_bind {A B} (m : M A) (k : A -> M B) :
  preserves f m -> (forall a, preserves f (k a)) -> preserves f (bind m k).
Proof.
  intros Hm Hk st. unfold bind. specialize (Hm st).
  destruct (m st) as [[a | e |] st']; simpl in *; try assumption.
  rewrite Hk. assumption.
Qed.

Lemma preserves_try_catch {A} (m : M A) (h : exn -> M A) :
  preserves f m -> (forall e, preserves f (h e)) -> preserves f (try_catch m h).
Proof.
  intros Hm Hh st. unfold try_catch. specialize (Hm st).
  destruct (m st) as [[a | e |] st']; simpl in *; try assumption.
  rewrite Hh. assumption.
Qed.

Lemma preserves_modify (g : State -> State) :
  (forall st, f (g st) = f st) -> preserves f (modify g).
Proof. intros H st. apply H. Qed.

Lemma preserves_then {A B} (m : M A) (k : M B) :
  preserves f k -> forall st, f (snd (bind m (fun _ => k) st)) = f (snd (m st)).
Proof.
  intros Hk st. unfold bind.
  destruct (m st) as [[a | e |] st']; simpl; try reflexivity. apply Hk.
Qed.

End Frame.

(** Proves [preserves f m] for a statement built from the combinators. *)
Ltac frame :=
  repeat first
    [ apply preserves_bind; [ | intro ]
    | apply preserves_try_catch; [ | intro ]
    | apply preserves_ret
    | apply preserves_lift
    | apply preserves_gets
    | apply preserves_modify; intro; reflexivity ].

Lemma saveData_portfolio : preserves portfolio saveData.
Proof. unfold saveData. frame. Qed.

Lemma saveData_stockData : preserves stockData saveData.
Proof. unfold saveData. frame. Qed.

Lemma renderTable_state st : snd (renderTable st) = st.
Proof.
  unfold renderTable, bind, gets, lift, ret. simpl.
  destruct (forEach _ _); reflexivity.
Qed.

Lemma updateSummary_state st : snd (updateSummary st) = st.
Proof.
  unfold updateSummary, bind, gets, lift, ret. simpl.
  destruct (summarize _ _); reflexivity.
Qed.

Lemma renderTable_preserves {B} (f : State -> B) : preserves f renderTable.
Proof. intros st. rewrite renderTable_state. reflexivity. Qed.

Lemma updateSummary_preserves {B} (f : State -> B) : preserves f updateSummary.
Proof. intros st. rewrite updateSummary_state. reflexivity. Qed.

(** ** Reading a well-typed ledger *)

Lemma get_symbol p : get (stock_of p) "symbol" = Ok (VStr (symbol p)).
Proof. reflexivity. Qed.

Lemma get_qty p : get (stock_of p) "qty" = Ok (VNum (qty p)).
Proof. reflexivity. Qed.

Lemma get_cost p : get (stock_of p) "cost" = Ok (VNum (cost p)).
Proof. reflexivity. Qed.

Lemma find_symbol_absent sym (ps : list Position) :
  Forall (fun p => symbol p <> sym) ps ->
  find_symbol sym (stock_of <$> ps) = Ok None.
Proof.
  induction 1 as [| p ps Hp _ IH]; [reflexivity |].
  cbn [fmap list_fmap find_symbol]. rewrite get_symbol. cbn [rbind strict_eq_str].
  apply String.eqb_neq in Hp. rewrite Hp.
  change (list_fmap _ _ stock_of ps) with (stock_of <$> ps). rewrite IH. reflexivity.
Qed.

Lemma find_symbol_first sym (ps : list Position) i p :
  first_at sym ps i p -> find_symbol sym (stock_of <$> ps) = Ok (Some i).
Proof.
  revert i. induction ps as [| p0 ps IH]; intros i (Hi & Hs & Hbefore).
  - discriminate.
  - cbn [fmap list_fmap find_symbol]. rewrite get_symbol. cbn [rbind strict_eq_str].
    destruct i as [| i].
    + injection Hi as ->. apply String.eqb_eq in Hs. rewrite Hs. reflexivity.
    + assert (Hp0 : symbol p0 <> sym) by (apply (Hbefore 0 p0); [lia | reflexivity]).
      apply String.eqb_neq in Hp0. rewrite Hp0.
      change (list_fmap _ _ stock_of ps) with (stock_of <$> ps).
      rewrite (IH i); [reflexivity |].
      split; [exact Hi |]. split; [exact Hs |].
      intros j p' Hj Hp'. apply (Hbefore (S j) p'); [lia | exact Hp'].
Qed.

(** ** Running a statement step by step *)

Lemma bind_gets {A B} (f : State -> A) (k : A -> M B) st :
  bind (gets f) k st = k (f st) st.
Proof. reflexivity. Qed.

Lemma bind_lift_Ok {A B} (r : result A) (a : A) (k : A -> M B) st :
  r = Ok a -> bind (lift r) k st = k a st.
Proof. intros ->. reflexivity. Qed.

Lemma bind_modify {B} (g : State -> State) (k : unit -> M B) st :
  bind (modify g) k st = k tt (g st).
Proof. reflexivity. Qed.

Lemma bind_ret {A B} (a : A) (k : A -> M B) st : bind (ret a) k st = k a st.
Proof. reflexivity. Qed.

Lemma addStock_portfolio_found st (ps : list Position) sym q c i p :
  portfolio st = stock_of <$> ps ->
  first_at sym ps i p ->
  portfolio (snd (addStock sym q c st)) = stock_of <$> <[i := merged p (q, c)]> ps.
Proof.
  intros Hport Hfirst. unfold addStock.
  rewrite bind_gets, Hport.
  rewrite (bind_lift_Ok _ _ _ _ (find_symbol_first _ _ _ _ Hfirst)).
  destruct Hfirst as (Hi & Hs & _).
  rewrite preserves_then by frame.
  rewrite list_lookup_fmap, Hi. cbn [fmap option_fmap option_map default].
  rewrite (bind_lift_Ok _ _ _ _ (get_qty p)), (bind_lift_Ok _ _ _ _ (get_cost p)).
  cbn. rewrite list_fmap_insert. unfold merged, stock_of. cbn. rewrite Hs. reflexivity.
Qed.

Lemma addStock_portfolio_new st (ps : list Position) sym q c :
  portfolio st = stock_of <$> ps ->
  Forall (fun p => symbol p <> sym) ps ->
  portfolio (snd (addStock sym q c st)) = stock_of <$> (ps ++ [mkPosition sym q c]).
Proof.
  intros Hport Habsent. unfold addStock.
  rewrite bind_gets, Hport.
  rewrite (bind_lift_Ok _ _ _ _ (find_symbol_absent _ _ Habsent)).
  rewrite preserves_then by frame.
  cbn. rewrite fmap_app. reflexivity.
Qed.

Lemma first_at_merged sym (ps : list Position) i p m :
  first_at sym ps i p -> first_at sym (<[i := merged p m]> ps) i (merged p m).
Proof.
  intros (Hi & Hs & Hbefore). split; [| split].
  - apply list_lookup_insert_eq. apply (lookup_lt_Some _ _ _ Hi).
  - exact Hs.
  - intros j p' Hj Hp'. rewrite list_lookup_insert_ne in Hp' by lia.
    apply (Hbefore j p' Hj Hp').
Qed.

Lemma addStocks_portfolio sym ms : forall st (ps : list Position) i p,
  portfolio st = stock_of <$> ps ->
  first_at sym ps i p ->
  portfolio (addStocks sym ms st) = stock_of <$> <[i := fold_left merged ms p]> ps.
Proof.
  induction ms as [| [q c] ms IH]; intros st ps i p Hport Hfirst.
  - cbn. rewrite list_insert_id; [exact Hport | apply Hfirst].
  - cbn [addStocks fold_left fst snd].
    change (portfolio (addStocks sym ms (snd (addStock sym q c st))) =
            stock_of <$> <[i := fold_left merged ms (merged p (q, c))]> ps).
    rewrite (IH _ (<[i := merged p (q, c)]> ps) i (merged p (q, c))).
    (* the fold first applies the rule to [p] *)
    + rewrite list_insert_insert_eq. reflexivity.
    + apply addStock_portfolio_found; assumption.
    + apply first_at_merged. exact Hfirst.
Qed.

(** ** C1: merging into an existing Position *)

(** *** The rule in exact arithmetic

    There it gives the cost basis over the quantity, whatever the order of
    the merges. *)

Lemma shares_cons m ms : shares (m :: ms) = (fst m + shares ms)%Q.
Proof. reflexivity. Qed.

Lemma basis_cons m ms : basis (m :: ms) = (fst m * snd m + basis ms)%Q.
Proof. reflexivity. Qed.

Lemma shares_nonnegative (ms : list (Q * Q)) :
  Forall (fun m => (0 < fst m)%Q) ms -> (0 <= shares ms)%Q.
Proof.
  induction 1 as [| m ms Hm _ IH]; [cbn; lra |].
  rewrite shares_cons. lra.
Qed.

Lemma mergedExact_fold (ms : list (Q * Q)) : forall p,
  (0 < fst p)%Q -> Forall (fun m => (0 < fst m)%Q) ms ->
  (fst (fold_left mergedExact ms p) == fst p + shares ms)%Q /\
  (snd (fold_left mergedExact ms p) ==
     (fst p * snd p + basis ms) / (fst p + shares ms))%Q.
Proof.
  induction ms as [| [q c] ms IH]; intros [q0 c0] Hq0 Hall.
  - cbn in *. split; [ring |]. field. lra.
  - inversion Hall as [| m ms' Hq Hrest]; subst.
    rewrite shares_cons, basis_cons. cbn [fold_left fst snd] in *.
    pose proof (shares_nonnegative ms Hrest) as Hsh.
    assert (Hpos : (0 < q0 + q)%Q) by lra.
    destruct (IH (mergedExact (q0, c0) (q, c)) Hpos Hrest) as [IHq IHc].
    unfold mergedExact in *. cbn [weightedAverage fst snd] in *.
    split.
    + rewrite IHq. ring.
    + rewrite IHc. field. split; lra.
Qed.

Lemma shares_permutation (ms ms' : list (Q * Q)) :
  ms ≡ₚ ms' -> (shares ms == shares ms')%Q.
Proof.
  induction 1 as [| m ms ms' _ IH | m m' ms | ms ms' ms'' _ IH1 _ IH2].
  - reflexivity.
  - rewrite !shares_cons, IH. reflexivity.
  - rewrite !shares_cons. ring.
  - rewrite IH1. exact IH2.
Qed.

Lemma basis_permutation (ms ms' : list (Q * Q)) :
  ms ≡ₚ ms' -> (basis ms == basis ms')%Q.
Proof.
  induction 1 as [| m ms ms' _ IH | m m' ms | ms ms' ms'' _ IH1 _ IH2].
  - reflexivity.
  - rewrite !basis_cons, IH. reflexivity.
  - rewrite !basis_cons. ring.
  - rewrite IH1. exact IH2.
Qed.

Lemma mergedExact_order (ms ms' : list (Q * Q)) p :
  (0 < fst p)%Q -> Forall (fun m => (0 < fst m)%Q) ms -> ms ≡ₚ ms' ->
  (snd (fold_left mergedExact ms p) == snd (fold_left mergedExact ms' p))%Q.
Proof.
  intros Hp Hall Hperm.
  assert (Hall' : Forall (fun m => (0 < fst m)%Q) ms') by (rewrite <- Hperm; exact Hall).
  destruct (mergedExact_fold ms p Hp Hall) as [_ ->].
  destruct (mergedExact_fold ms' p Hp Hall') as [_ ->].
  rewrite (shares_permutation _ _ Hperm), (basis_permutation _ _ Hperm). reflexivity.
Qed.

(** C1 (amended).  When the ledger is well typed and [p] is its Position for
    [sym], a merge of [(q, c)] replaces [p], in place, by the Position with
    quantity [qty p + q] and average cost
    [(qty p * cost p + q * c) / (qty p + q)], every operation being rounded to
    binary64, and leaves the other Positions alone; a sequence of merges for
    [sym] leaves what iterating that rule in the order of the merges gives.
    Read in exact arithmetic, the rule gives, after merges of positive
    quantities, the total cost basis over the total quantity, whatever the
    order of the merges. *)
Theorem addStock_weighted_average st (ps : list Position) sym i p :
  portfolio st = stock_of <$> ps ->
  first_at sym ps i p ->
  (forall q c,
     portfolio (snd (addStock sym q c st)) =
     stock_of <$> <[i := mkPosition sym (qty p + q)
                           ((qty p * cost p + q * c) / (qty p + q))]> ps) /\
  (forall ms,
     portfolio (addStocks sym ms st) =
     stock_of <$> <[i := fold_left merged ms p]> ps) /\
  (forall (held : Q * Q) (ms ms' : list (Q * Q)),
     (0 < fst held)%Q -> Forall (fun m => (0 < fst m)%Q) ms -> ms ≡ₚ ms' ->
     (snd (fold_left mergedExact ms held) ==
        (fst held * snd held + basis ms) / (fst held + shares ms))%Q /\
     (snd (fold_left mergedExact ms' held) ==
        snd (fold_left mergedExact ms held))%Q).
Proof.
  intros Hport Hfirst. split; [| split].
  - intros q c. rewrite (addStock_portfolio_found st ps sym q c i p Hport Hfirst).
    unfold merged. cbn [weightedAverage fst snd].
    destruct Hfirst as (_ & -> & _). reflexivity.
  - intros ms. apply addStocks_portfolio; assumption.
  - intros held ms ms' Hheld Hall Hperm. split.
    + apply (mergedExact_fold ms held Hheld Hall).
    + symmetry. apply (mergedExact_order ms ms' held Hheld Hall Hperm).
Qed.

(** Merging 10 at 100 and then 10 at 200 leaves 20 at 150. *)
Lemma addStock_weighted_average_example :
  portfolio (snd (addStock "AAPL" 10 200 (snd (addStock "AAPL" 10 100 emptyState)))) =
  [stock_of (mkPosition "AAPL" 20 150)].
Proof.
  refine (proj1 (addStock_weighted_average
                   (snd (addStock "AAPL" 10 100 emptyState))
                   [mkPosition "AAPL" 10 100] "AAPL" 0 (mkPosition "AAPL" 10 100)
                   _ _) 10%float 200%float).
  - vm_compute. reflexivity.
  - split; [reflexivity | split; [reflexivity | intros j p' Hj; lia]].
Defined.

(** C1 as stated fails: the same three merges, each of one share, at 0.1, 0.2
    and 0.3, leave the average cost 0.20000000000000004 in one order and
    0.19999999999999998 in the other. *)
Lemma addStocks_order_counterexample :
  [(1, 0.1); (1, 0.2); (1, 0.3)]%float ≡ₚ [(1, 0.3); (1, 0.2); (1, 0.1)]%float /\
  portfolio (addStocks "X" [(1, 0.1); (1, 0.2); (1, 0.3)]%float emptyState) =
    [stock_of (mkPosition "X" 3 0.20000000000000004)] /\
  portfolio (addStocks "X" [(1, 0.3); (1, 0.2); (1, 0.1)]%float emptyState) =
    [stock_of (mkPosition "X" 3 0.19999999999999998)] /\
  portfolio (addStocks "X" [(1, 0.1); (1, 0.2); (1, 0.3)]%float emptyState) <>
  portfolio (addStocks "X" [(1, 0.3); (1, 0.2); (1, 0.1)]%float emptyState).
Proof.
  split; [| split; [| split]].
  - exact (Permutation_rev [(1, 0.1); (1, 0.2); (1, 0.3)]%float).
  - vm_compute. reflexivity.
  - vm_compute. reflexivity.
  - intros H.
    apply (f_equal (fun l => match l with
                             | [VObj [_; _; (_, VNum x)]] =>
                                 (x =? 0.19999999999999998)%float
                             | _ => true
                             end)) in H.
    vm_compute in H. discriminate H.
Qed.

(** ** C2, C4: the valuation *)

Lemma lookup_record (prices : gmap string PriceRecord) key :
  (record_of <$> prices) !! key = record_of <$> (prices !! key).
Proof. apply lookup_fmap. Qed.

Lemma summaryStep_typed (prices : gmap string PriceRecord) inv cur has p :
  summaryStep (record_of <$> prices) (inv, cur, has) (stock_of p) =
  Ok ((inv + qty p * cost p)%float,
      match usable prices (symbol p) with
      | Some x => (cur + qty p * x)%float
      | None => cur
      end,
      match usable prices (symbol p) with
      | Some _ => true
      | None => has
      end).
Proof.
  unfold summaryStep, usable. rewrite get_qty, get_cost, get_symbol.
  cbn [rbind js_mul ToNumber ToPrimitive ToString]. rewrite lookup_record.
  destruct (prices !! symbol p) as [r |]; cbn [fmap option_fmap option_map].
  - destruct r as [[x |] ch ts cl]; cbn.
    + destruct (0 <? x)%float; reflexivity.
    + reflexivity.
  - reflexivity.
Qed.

Lemma summaryLoop_typed (prices : gmap string PriceRecord) (ps : list Position) :
  forall inv cur has,
  summaryLoop (record_of <$> prices) (inv, cur, has) (stock_of <$> ps) =
  Ok (fold_left (fun acc p => acc + qty p * cost p)%float ps inv,
      fold_left (fun acc p => match usable prices (symbol p) with
                              | Some x => (acc + qty p * x)%float
                              | None => acc
                              end) ps cur,
      has || hasAnyPriceData prices ps).
Proof.
  induction ps as [| p ps IH]; intros inv cur has.
  - cbn. rewrite orb_false_r. reflexivity.
  - cbn [fmap list_fmap summaryLoop]. rewrite summaryStep_typed. cbn [rbind].
    change (list_fmap _ _ stock_of ps) with (stock_of <$> ps). rewrite IH.
    cbn [fold_left hasAnyPriceData existsb].
    destruct (usable prices (symbol p)); cbn.
    + rewrite orb_true_r. reflexivity.
    + reflexivity.
Qed.

(** C2.  On a well-typed ledger and cache, [updateSummary] computes the
    total invested as the sum, in ledger order, of [qty * cost] over all
    Positions; the current value as the sum of [qty * price] over the Positions
    whose symbol has a cached price above 0, which are also the ones that set
    the data flag; the profit as their difference, and its percentage as
    [totalPl / totalInv * 100] when the total invested is above 0 and 0
    otherwise.  For AAPL, 10 shares at 150 with a cached price of 180, the
    figures are 1500, 1800, 300 and 20. *)
Theorem summarize_correct :
  (forall (ps : list Position) (prices : gmap string PriceRecord),
     summarize (stock_of <$> ps) (record_of <$> prices) =
     Ok (summarize_spec ps prices)) /\
  summarize [stock_of aapl] aaplQuoted = Ok (mkSummary 1500 1800 true 300 20).
Proof.
  assert (H : forall (ps : list Position) (prices : gmap string PriceRecord),
             summarize (stock_of <$> ps) (record_of <$> prices) =
             Ok (summarize_spec ps prices)).
  { intros ps prices. unfold summarize. rewrite summaryLoop_typed. reflexivity. }
  split; [exact H |].
  vm_compute. reflexivity.
Qed.

Lemma summaryStep_missing (cache : gmap string value) p inv cur has :
  cache !! symbol p = None ->
  summaryStep cache (inv, cur, has) (stock_of p) =
  Ok ((inv + qty p * cost p)%float, cur, has).
Proof.
  intros Hnone. unfold summaryStep. rewrite get_qty, get_cost, get_symbol.
  cbn [rbind js_mul ToNumber ToPrimitive ToString]. rewrite Hnone. reflexivity.
Qed.

Lemma renderRow_missing (cache : gmap string value) p :
  cache !! symbol p = None ->
  renderRow cache (stock_of p) = Ok (mkRow None None None neutral).
Proof.
  intros Hnone. unfold renderRow. rewrite get_symbol.
  cbn [rbind ToString]. rewrite Hnone. reflexivity.
Qed.

Lemma summaryLoop_missing (cache : gmap string value) (ps : list Position) :
  Forall (fun p => cache !! symbol p = None) ps ->
  forall inv cur has,
  summaryLoop cache (inv, cur, has) (stock_of <$> ps) =
  Ok (fold_left (fun acc p => acc + qty p * cost p)%float ps inv, cur, has).
Proof.
  induction 1 as [| p ps Hp _ IH]; intros inv cur has; [reflexivity |].
  cbn [fmap list_fmap summaryLoop]. rewrite (summaryStep_missing _ _ _ _ _ Hp).
  cbn [rbind]. change (list_fmap _ _ stock_of ps) with (stock_of <$> ps).
  rewrite IH. reflexivity.
Qed.

(** C4.  A Position whose symbol has no entry in the cache adds its
    [qty * cost] to the total invested and leaves the current value and the
    data flag as they were; its row shows 'Loading...' for the price, no value
    and no profit, in the neutral class, so it is not valued at a price of 0.
    A ledger none of whose symbols has an entry has its invested total, a
    current value of 0 and no price data. *)
Theorem missing_entry_is_loading (cache : gmap string value) :
  (forall p inv cur has,
     cache !! symbol p = None ->
     summaryStep cache (inv, cur, has) (stock_of p) =
       Ok ((inv + qty p * cost p)%float, cur, has) /\
     renderRow cache (stock_of p) = Ok (mkRow None None None neutral)) /\
  (forall ps : list Position,
     Forall (fun p => cache !! symbol p = None) ps ->
     exists s, summarize (stock_of <$> ps) cache = Ok s /\
               totalInv s = invested ps /\ currentVal s = 0%float /\
               hasData s = false).
Proof.
  split.
  - intros p inv cur has Hnone. split.
    + apply summaryStep_missing. exact Hnone.
    + apply renderRow_missing. exact Hnone.
  - intros ps Hall. unfold summarize.
    rewrite (summaryLoop_missing _ _ Hall). cbn [rbind].
    eexists. split; [reflexivity |]. repeat split.
Qed.

Lemma missing_entry_is_loading_example :
  summaryStep aaplQuoted (1500, 1800, true)%float (stock_of msft) =
    Ok (2100, 1800, true)%float /\
  renderRow aaplQuoted (stock_of msft) = Ok (mkRow None None None neutral).
Proof.
  exact (proj1 (missing_entry_is_loading aaplQuoted) msft 1500%float 1800%float true
               ltac:(vm_compute; reflexivity)).
Defined.

(** ** C3: the form's validation *)

Lemma Prim2SF_zero : Prim2SF 0 = S754_zero false.
Proof. reflexivity. Qed.

Lemma nonpositive_not_positive (x : float) :
  (x <=? 0)%float = true -> (0 <? x)%float = false.
Proof.
  rewrite leb_spec, ltb_spec, Prim2SF_zero. unfold SFleb, SFltb.
  destruct (Prim2SF x) as [s | s | | s m e]; try destruct s; cbn; congruence.
Qed.

Lemma negative_not_nonnegative (x : float) :
  (x <? 0)%float = true -> (0 <=? x)%float = false.
Proof.
  rewrite leb_spec, ltb_spec, Prim2SF_zero. unfold SFleb, SFltb.
  destruct (Prim2SF x) as [s | s | | s m e]; try destruct s; cbn; congruence.
Qed.

(** C3.  When the quantity is at most 0 or the cost is below 0, the submit
    handler takes its rejecting branch: [addStock] is not called and the whole
    state, ledger and persisted copy included, is what it was. *)
Theorem form_submit_rejects_invalid ticker (quantity c : float) st :
  (quantity <=? 0)%float = true \/ (c <? 0)%float = true ->
  form_submit ticker quantity c st = (Ok InvalidInput, st).
Proof.
  intros [Hq | Hc]; unfold form_submit.
  - rewrite (nonpositive_not_positive _ Hq), andb_false_r. reflexivity.
  - rewrite (negative_not_nonnegative _ Hc), andb_false_r. reflexivity.
Qed.

Lemma form_submit_rejects_invalid_examples :
  form_submit "AAPL" 0 100 (mkState [stock_of aapl] aaplQuoted None [] []) =
    (Ok InvalidInput, mkState [stock_of aapl] aaplQuoted None [] []) /\
  form_submit "AAPL" 5 (-1) (mkState [stock_of aapl] aaplQuoted None [] []) =
    (Ok InvalidInput, mkState [stock_of aapl] aaplQuoted None [] []).
Proof.
  split.
  - apply form_submit_rejects_invalid. left. reflexivity.
  - apply form_submit_rejects_invalid. right. reflexivity.
Defined.

(** ** C10: removing a Position *)

Lemma filterR_typed sym (ps : list Position) :
  filterR (fun s => let? v := get s "symbol" in Ok (negb (strict_eq_str v sym)))
          (stock_of <$> ps) =
  Ok (stock_of <$> List.filter (fun p => negb (String.eqb (symbol p) sym)) ps).
Proof.
  induction ps as [| p ps IH]; [reflexivity |].
  cbn [fmap list_fmap filterR List.filter]. rewrite get_symbol.
  cbn [rbind strict_eq_str].
  change (list_fmap _ _ stock_of ps) with (stock_of <$> ps). rewrite IH.
  cbn [rbind]. destruct (String.eqb (symbol p) sym); reflexivity.
Qed.

(** On a well-typed ledger [deleteStock] drops the Positions of the symbol. *)
Lemma deleteStock_portfolio sym st (ps : list Position) :
  portfolio st = stock_of <$> ps ->
  portfolio (snd (deleteStock sym st)) =
  stock_of <$> List.filter (fun p => negb (String.eqb (symbol p) sym)) ps.
Proof.
  intros Hport. unfold deleteStock.
  rewrite bind_gets, Hport, (bind_lift_Ok _ _ _ _ (filterR_typed sym ps)).
  rewrite bind_modify.
  assert (Hk : preserves portfolio (saveData;; renderTable;; updateSummary)).
  { frame. }
  apply Hk.
Qed.

(** C10.  [deleteStock] leaves the price cache exactly as it was, whatever the
    state and the symbol: the entry of the removed symbol stays, and no other
    entry is touched. *)
Theorem deleteStock_keeps_cache sym st :
  stockData (snd (deleteStock sym st)) = stockData st.
Proof.
  revert st. change (preserves stockData (deleteStock sym)).
  unfold deleteStock. frame.
Qed.

(** ** Drawing and summarising a well-typed state never fails *)

Lemma renderRow_typed (prices : gmap string PriceRecord) p :
  exists row, renderRow (record_of <$> prices) (stock_of p) = Ok row.
Proof.
  unfold renderRow. rewrite get_symbol. cbn [rbind ToString].
  rewrite lookup_record, get_qty, get_cost.
  destruct (prices !! symbol p) as [[[x |] ch ts cl] |];
    cbn [fmap option_fmap option_map].
  - cbn. destruct (0 <? x)%float; cbn; eexists; reflexivity.
  - cbn. eexists; reflexivity.
  - cbn. eexists; reflexivity.
Qed.

Lemma forEach_typed (prices : gmap string PriceRecord) (ps : list Position) :
  exists rows, forEach (renderRow (record_of <$> prices)) (stock_of <$> ps) = Ok rows.
Proof.
  induction ps as [| p ps [rows IH]]; [eexists; reflexivity |].
  destruct (renderRow_typed prices p) as [row Hrow].
  cbn [fmap list_fmap forEach]. rewrite Hrow. cbn [rbind].
  change (list_fmap _ _ stock_of ps) with (stock_of <$> ps). rewrite IH.
  eexists; reflexivity.
Qed.

Lemma renderTable_typed st (ps : list Position) (prices : gmap string PriceRecord) :
  portfolio st = stock_of <$> ps ->
  stockData st = record_of <$> prices ->
  renderTable st = (Ok tt, st).
Proof.
  intros Hport Hcache. unfold renderTable.
  rewrite bind_gets, bind_gets, Hport, Hcache.
  destruct (forEach_typed prices ps) as [rows Hrows].
  rewrite (bind_lift_Ok _ _ _ _ Hrows). reflexivity.
Qed.

Lemma updateSummary_typed st (ps : list Position) (prices : gmap string PriceRecord) :
  portfolio st = stock_of <$> ps ->
  stockData st = record_of <$> prices ->
  updateSummary st = (Ok tt, st).
Proof.
  intros Hport Hcache. unfold updateSummary.
  rewrite bind_gets, bind_gets, Hport, Hcache.
  assert (H : summarize (stock_of <$> ps) (record_of <$> prices) =
              Ok (summarize_spec ps prices)).
  { unfold summarize. rewrite summaryLoop_typed. reflexivity. }
  rewrite (bind_lift_Ok _ _ _ _ H). reflexivity.
Qed.

(** ** C7, C8: fetching *)

Lemma fetchStockData_answered st (ps : list Position) (prices : gmap string PriceRecord)
    sym response r :
  portfolio st = stock_of <$> ps ->
  stockData st = record_of <$> prices ->
  answers response (Some r) ->
  fetchStockData (VStr sym) response st =
  (Ok tt, set_stockData (record_of <$> <[sym := r]> prices)
            (log_event (EvSettled sym) (log_event (EvRequest sym) st))).
Proof.
  intros Hport Hcache Hans. unfold answers in Hans.
  destruct response as [json | e |]; cbn [rbind] in Hans; try discriminate Hans.
  unfold fetchStockData, try_catch.
  rewrite (bind_lift_Ok _ _ _ _ (eq_refl : ToString (VStr sym) = Ok sym)).
  rewrite bind_modify, bind_modify.
  rewrite (bind_lift_Ok _ _ _ _ (eq_refl : Ok json = Ok json)).
  rewrite (bind_lift_Ok _ _ _ _ Hans), bind_gets, bind_modify.
  cbn [stockData log_event]. rewrite Hcache, <- fmap_insert.
  set (st' := set_stockData _ _).
  unfold bind at 1.
  rewrite (renderTable_typed st' ps (<[sym := r]> prices)) by (subst st'; assumption || reflexivity).
  rewrite (updateSummary_typed st' ps (<[sym := r]> prices)) by (subst st'; assumption || reflexivity).
  reflexivity.
Qed.

Lemma fetchStockData_failed st sym response :
  answers response None ->
  fetchStockData (VStr sym) response st =
  (Ok tt, log_event (EvSettled sym) (log_event (EvRequest sym) st)).
Proof.
  intros [e Hans].
  unfold fetchStockData, try_catch.
  rewrite (bind_lift_Ok _ _ _ _ (eq_refl : ToString (VStr sym) = Ok sym)).
  rewrite bind_modify, bind_modify.
  destruct response as [json | e' |]; cbn [rbind] in Hans; try discriminate Hans.
  - rewrite (bind_lift_Ok _ _ _ _ (eq_refl : Ok json = Ok json)).
    unfold bind at 1. unfold lift at 1. rewrite Hans. reflexivity.
  - reflexivity.
Qed.

Lemma provides_quoteRecord json p c ts cl :
  provides json p c ts cl ->
  quoteRecord json = Ok (record_of (mkPriceRecord (Some p) (p - c) ts cl)).
Proof.
  intros (chart & results & result & meta & indicators & quote & quote0 &
          H1 & H2 & H3 & H4 & H5 & H6 & H7 & H8 & H9 & H10 & H11).
  unfold quoteRecord.
  rewrite H1; cbn [rbind]. rewrite H2; cbn [rbind]. rewrite H3; cbn [rbind].
  rewrite H4; cbn [rbind]. rewrite H5; cbn [rbind]. rewrite H6; cbn [rbind].
  cbn [js_sub ToNumber ToPrimitive rbind].
  rewrite H7; cbn [rbind]. rewrite H8; cbn [rbind]. rewrite H9; cbn [rbind].
  rewrite H10; cbn [rbind]. rewrite H11; cbn [rbind]. reflexivity.
Qed.

Lemma chartBody_provides p c ts cl : provides (chartBody p c ts cl) p c ts cl.
Proof. unfold provides, chartBody. repeat eexists; reflexivity. Qed.

(** C8.  When the body of the response has the price [p], the previous close
    [c] and the series [ts] and [cl], [fetchStockData] returns normally after
    writing, under the symbol, exactly the record with price [p], change
    [p - c] and that history, in place of whatever record the cache held for
    the symbol; the ledger and the persisted copy are not touched. *)
Theorem fetchStockData_stores_quote st (ps : list Position)
    (prices : gmap string PriceRecord) sym json (p c : float) ts cl :
  portfolio st = stock_of <$> ps ->
  stockData st = record_of <$> prices ->
  provides json p c ts cl ->
  exists st',
    fetchStockData (VStr sym) (Ok json) st = (Ok tt, st') /\
    stockData st' =
      <[sym := VObj [("price", VNum p); ("change", VNum (p - c));
                     ("history", VObj [("timestamp", ts); ("close", cl)])]%string]>
        (stockData st) /\
    portfolio st' = portfolio st /\
    localStorage st' = localStorage st.
Proof.
  intros Hport Hcache Hjson.
  assert (Hans : answers (Ok json) (Some (mkPriceRecord (Some p) (p - c) ts cl))).
  { apply provides_quoteRecord. exact Hjson. }
  rewrite (fetchStockData_answered st ps prices sym _ _ Hport Hcache Hans).
  eexists. split; [reflexivity |]. repeat split.
  cbn [stockData set_stockData]. rewrite Hcache, fmap_insert. reflexivity.
Qed.

Lemma fetchStockData_stores_quote_example :
  exists st',
    fetchStockData (VStr "AAPL") (Ok (chartBody 182 175 (VArr []) (VArr [])))
                   (mkState [stock_of aapl] aaplQuoted None [] []) = (Ok tt, st') /\
    stockData st' =
      <["AAPL"%string :=
          VObj [("price", VNum 182); ("change", VNum 7);
                ("history", VObj [("timestamp", VArr []); ("close", VArr [])])]%string]>
        aaplQuoted /\
    portfolio st' = [stock_of aapl] /\
    localStorage st' = None.
Proof.
  apply (fetchStockData_stores_quote
           (mkState [stock_of aapl] aaplQuoted None [] []) [aapl]
           {["AAPL"%string := mkPriceRecord (Some 180%float) 5 VUndefined VUndefined]}
           "AAPL" (chartBody 182 175 (VArr []) (VArr [])) 182%float 175%float
           (VArr []) (VArr [])).
  - reflexivity.
  - reflexivity.
  - unfold provides, chartBody. repeat eexists; reflexivity.
Defined.

(** The state a run of [fetchAllData] over the Positions [ps] leaves. *)
Lemma fetchAllLoop_typed responses outcomes (ps : list Position) :
  forall n st (prices : gmap string PriceRecord) (before : list Position),
  portfolio st = stock_of <$> before ->
  stockData st = record_of <$> prices ->
  (forall k, k < length ps -> answers (responses (n + k)) (outcomes (n + k))) ->
  fetchAllLoop responses n (stock_of <$> ps) st =
  (Ok tt, mkState (portfolio st) (record_of <$> refreshed outcomes n ps prices)
                  (localStorage st) (started st) (trace st ++ batchTrace ps)).
Proof.
  induction ps as [| p ps IH]; intros n st prices before Hport Hcache Hans.
  - cbn. rewrite app_nil_r, <- Hcache. destruct st; reflexivity.
  - cbn [fmap list_fmap fetchAllLoop].
    rewrite (bind_lift_Ok _ _ _ _ (get_symbol p)).
    change (list_fmap _ _ stock_of ps) with (stock_of <$> ps).
    assert (Hn : answers (responses n) (outcomes n)).
    { specialize (Hans 0). rewrite Nat.add_0_r in Hans. apply Hans. cbn. lia. }
    assert (Hrest : forall k, k < length ps ->
                      answers (responses (S n + k)) (outcomes (S n + k))).
    { intros k Hk. specialize (Hans (S k)).
      replace (n + S k) with (S n + k) in Hans by lia. apply Hans. cbn. lia. }
    unfold bind at 1. cbn [refreshed batchTrace flat_map].
    destruct (outcomes n) as [r |].
    + rewrite (fetchStockData_answered st before prices _ _ r Hport Hcache Hn).
      rewrite bind_modify.
      match goal with
      | |- fetchAllLoop _ _ _ ?s = _ =>
          rewrite (IH (S n) s (<[symbol p := r]> prices) before Hport eq_refl Hrest)
      end.
      cbn. rewrite <- !app_assoc. reflexivity.
    + rewrite (fetchStockData_failed st _ _ Hn).
      rewrite bind_modify.
      match goal with
      | |- fetchAllLoop _ _ _ ?s = _ =>
          rewrite (IH (S n) s prices before Hport Hcache Hrest)
      end.
      cbn. rewrite <- !app_assoc. reflexivity.
Qed.

Lemma refreshed_unanswered outcomes s (ps : list Position) :
  forall n (prices : gmap string PriceRecord),
  (forall k p, ps !! k = Some p -> symbol p = s -> outcomes (n + k) = None) ->
  refreshed outcomes n ps prices !! s = prices !! s.
Proof.
  induction ps as [| p ps IH]; intros n prices Hnone; [reflexivity |].
  cbn [refreshed]. rewrite IH.
  - destruct (outcomes n) as [r |] eqn:Hn; [| reflexivity].
    destruct (decide (symbol p = s)) as [Heq | Hne].
    + specialize (Hnone 0 p eq_refl Heq). rewrite Nat.add_0_r in Hnone. congruence.
    + apply lookup_insert_ne. exact Hne.
  - intros k p' Hk Hs. replace (S n + k) with (n + S k) by lia.
    apply (Hnone (S k) p' Hk Hs).
Qed.

Lemma refreshed_answered outcomes (ps : list Position) :
  forall n (prices : gmap string PriceRecord) i p r,
  ps !! i = Some p ->
  outcomes (n + i) = Some r ->
  (forall j p', i < j -> ps !! j = Some p' -> symbol p' = symbol p ->
                outcomes (n + j) = None) ->
  refreshed outcomes n ps prices !! symbol p = Some r.
Proof.
  induction ps as [| p0 ps IH]; intros n prices i p r Hi Hr Hlater; [discriminate |].
  cbn [refreshed]. destruct i as [| i].
  - injection Hi as ->. rewrite Nat.add_0_r in Hr. rewrite Hr.
    rewrite refreshed_unanswered.
    + apply lookup_insert_eq.
    + intros k p' Hk Hs. replace (S n + k) with (n + S k) by lia.
      apply (Hlater (S k) p'); [lia | exact Hk | exact Hs].
  - apply (IH (S n) _ i p r Hi).
    + replace (S n + i) with (n + S i) by lia. exact Hr.
    + intros j p' Hj Hp' Hs. replace (S n + j) with (n + S j) by lia.
      apply (Hlater (S j) p'); [lia | exact Hp' | exact Hs].
Qed.

Lemma fetchAllData_typed responses outcomes st (ps : list Position)
    (prices : gmap string PriceRecord) :
  portfolio st = stock_of <$> ps ->
  stockData st = record_of <$> prices ->
  (forall n, n < length ps -> answers (responses n) (outcomes n)) ->
  fetchAllData responses st =
  (Ok tt, mkState (portfolio st) (record_of <$> refreshed outcomes 0 ps prices)
                  (localStorage st) (started st) (trace st ++ batchTrace ps)).
Proof.
  intros Hport Hcache Hans. unfold fetchAllData. rewrite bind_gets.
  rewrite Hport at 1.
  apply (fetchAllLoop_typed responses outcomes ps 0 st prices ps Hport Hcache).
  intros k Hk. apply Hans. exact Hk.
Qed.

(** C7 (amended).  On a well-typed ledger and cache, when each request either
    yields a record or throws (the request fails, the body is not JSON, or
    the reading of its fields throws), [fetchAllData] returns normally and
    leaves the ledger alone; a symbol whose request yielded a record, no later
    request for the same symbol yielding another, ends with that record in the
    cache, also when requests before it threw; a symbol none of whose requests
    yielded a record ends as it started, with its previous entry or with
    none. *)
Theorem fetchAllData_isolates_failures responses outcomes st (ps : list Position)
    (prices : gmap string PriceRecord) :
  portfolio st = stock_of <$> ps ->
  stockData st = record_of <$> prices ->
  (forall n, n < length ps -> answers (responses n) (outcomes n)) ->
  exists st',
    fetchAllData responses st = (Ok tt, st') /\
    portfolio st' = portfolio st /\
    (forall i p r,
       ps !! i = Some p -> outcomes i = Some r ->
       (forall j p', i < j -> ps !! j = Some p' -> symbol p' = symbol p ->
                     outcomes j = None) ->
       stockData st' !! symbol p = Some (record_of r)) /\
    (forall s,
       (forall i p, ps !! i = Some p -> symbol p = s -> outcomes i = None) ->
       stockData st' !! s = stockData st !! s).
Proof.
  intros Hport Hcache Hans.
  rewrite (fetchAllData_typed responses outcomes st ps prices Hport Hcache Hans).
  eexists. split; [reflexivity |]. cbn [portfolio stockData].
  split; [reflexivity |]. split.
  - intros i p r Hi Hr Hlater. rewrite lookup_record.
    rewrite (refreshed_answered outcomes ps 0 prices i p r Hi Hr Hlater).
    reflexivity.
  - intros s Hnone. rewrite lookup_record, Hcache, lookup_record.
    rewrite (refreshed_unanswered outcomes s ps 0 prices Hnone). reflexivity.
Qed.

Lemma fetchAllData_isolates_failures_example :
  exists st',
    fetchAllData secondFails
      (mkState [stock_of aapl; stock_of msft; stock_of goog] ∅ None [] []) =
      (Ok tt, st') /\
    stockData st' !! "AAPL"%string =
      Some (record_of (mkPriceRecord (Some 182%float) 7 (VArr []) (VArr []))) /\
    stockData st' !! "MSFT"%string = None /\
    stockData st' !! "GOOG"%string =
      Some (record_of (mkPriceRecord (Some 141%float) 2 (VArr []) (VArr []))).
Proof.
  destruct (fetchAllData_isolates_failures secondFails secondFailed
              (mkState [stock_of aapl; stock_of msft; stock_of goog] ∅ None [] [])
              [aapl; msft; goog] ∅)
    as (st' & Hrun & _ & Hgood & Hbad).
  - reflexivity.
  - reflexivity.
  - intros [| [| [| n]]] Hn; cbn in Hn; try lia.
    + reflexivity.
    + exists NetworkError. reflexivity.
    + reflexivity.
  - exists st'. split; [exact Hrun |]. split; [| split].
    + apply (Hgood 0 aapl _ eq_refl eq_refl).
      intros [| [| [| j]]] p' Hj Hp' Hs; try lia; try discriminate Hp';
        injection Hp' as <-; discriminate Hs.
    + rewrite (Hbad "MSFT"%string); [reflexivity |].
      intros [| [| [| i]]] p Hp Hs; try discriminate Hp;
        injection Hp as <-; try discriminate Hs; reflexivity.
    + apply (Hgood 2 goog _ eq_refl eq_refl).
      intros [| [| [| j]]] p' Hj Hp' Hs; try lia; discriminate Hp'.
Defined.

(** C7 as stated fails: a body that lacks only the price does not make the
    reading throw, so the request counts as answered and the valid record the
    cache held for the symbol is replaced by one with no price and a change
    that is not a number. *)
Lemma fetchAllData_missing_price_counterexample :
  get (VObj [("chartPreviousClose", VNum 295)]%string) "regularMarketPrice" = Ok VUndefined /\
  msftQuoted !! "MSFT"%string =
    Some (VObj [("price", VNum 300); ("change", VNum 5);
                ("history", VObj [("timestamp", VUndefined); ("close", VUndefined)])]%string) /\
  fetchAllData alwaysPriceless (mkState [stock_of msft] msftQuoted None [] []) =
    (Ok tt,
     mkState [stock_of msft]
             {["MSFT"%string :=
                 VObj [("price", VUndefined); ("change", VNum nan);
                       ("history", VObj [("timestamp", VArr []); ("close", VArr [])])]%string]}
             None []
             [EvRequest "MSFT"; EvSettled "MSFT"; EvDelay 500]).
Proof. vm_compute. repeat split. Qed.

(** ** C9: the order of the requests *)

Lemma requested_batchTrace (ps : list Position) :
  requested (batchTrace ps) = symbol <$> ps.
Proof.
  induction ps as [| p ps IH]; [reflexivity |].
  cbn [batchTrace flat_map app requested fmap list_fmap].
  f_equal. exact IH.
Qed.

Lemma waited_batchTrace (ps : list Position) :
  waited (batchTrace ps) = (500 * Z.of_nat (length ps))%Z.
Proof.
  induction ps as [| p ps IH]; [reflexivity |].
  cbn [batchTrace flat_map app waited length].
  change (flat_map _ ps) with (batchTrace ps). rewrite IH. lia.
Qed.

Lemma inFlight_batchTrace (ps : list Position) :
  forall k, inFlight (take k (batchTrace ps)) = 0%Z \/
            inFlight (take k (batchTrace ps)) = 1%Z.
Proof.
  induction ps as [| p ps IH]; intros k.
  - left. destruct k; reflexivity.
  - cbn [batchTrace flat_map app]. change (flat_map _ ps) with (batchTrace ps).
    destruct k as [| [| [| k]]]; cbn [take inFlight].
    + left. reflexivity.
    + right. reflexivity.
    + left. reflexivity.
    + destruct (IH k) as [-> | ->]; [left | right]; reflexivity.
Qed.

(** C9.  On a well-typed ledger, a run of [fetchAllData] makes its requests
    one Position after the other in ledger order: each request is settled
    before anything else happens and is followed by an awaited delay of 500 ms,
    so at no point of the run is more than one request unsettled, and the
    delays awaited add up to 500 ms per Position, which is at least
    [(n - 1) * 500] ms for [n] Positions. *)
Theorem fetchAllData_sequential responses outcomes st (ps : list Position)
    (prices : gmap string PriceRecord) :
  portfolio st = stock_of <$> ps ->
  stockData st = record_of <$> prices ->
  (forall n, n < length ps -> answers (responses n) (outcomes n)) ->
  trace (snd (fetchAllData responses st)) =
    trace st ++
    flat_map (fun p => [EvRequest (symbol p); EvSettled (symbol p); EvDelay 500]) ps /\
  requested (batchTrace ps) = symbol <$> ps /\
  (forall k, inFlight (take k (batchTrace ps)) = 0%Z \/
             inFlight (take k (batchTrace ps)) = 1%Z) /\
  waited (batchTrace ps) = (500 * Z.of_nat (length ps))%Z /\
  ((Z.of_nat (length ps) - 1) * 500 <= waited (batchTrace ps))%Z.
Proof.
  intros Hport Hcache Hans.
  rewrite (fetchAllData_typed responses outcomes st ps prices Hport Hcache Hans).
  split; [reflexivity |].
  split; [apply requested_batchTrace |].
  split; [apply inFlight_batchTrace |].
  split; [apply waited_batchTrace |].
  rewrite waited_batchTrace. lia.
Qed.

Lemma fetchAllData_sequential_example :
  trace (snd (fetchAllData secondFails
                (mkState [stock_of aapl; stock_of msft; stock_of goog] ∅ None [] []))) =
  [EvRequest "AAPL"; EvSettled "AAPL"; EvDelay 500;
   EvRequest "MSFT"; EvSettled "MSFT"; EvDelay 500;
   EvRequest "GOOG"; EvSettled "GOOG"; EvDelay 500].
Proof.
  refine (proj1 (fetchAllData_sequential secondFails secondFailed
                   (mkState [stock_of aapl; stock_of msft; stock_of goog] ∅ None [] [])
                   [aapl; msft; goog] ∅ eq_refl eq_refl _)).
  intros [| [| [| n]]] Hn; cbn in Hn; try lia.
  - reflexivity.
  - exists NetworkError. reflexivity.
  - reflexivity.
Defined.

(** ** C5, C6: import and export *)

Lemma positive_not_zero (x : float) : (0 <? x)%float = true -> is_zero x = false.
Proof.
  unfold is_zero, zero. rewrite ltb_spec, FloatAxioms.eqb_spec, Prim2SF_zero.
  unfold SFltb, SFeqb.
  destruct (Prim2SF x) as [s | s | | s m e]; try destruct s; cbn; congruence.
Qed.

Lemma finite_not_nan (x : float) : is_finite x = true -> is_nan x = false.
Proof.
  unfold is_finite. destruct (is_nan x); [discriminate | reflexivity].
Qed.

Lemma json_number_exact (x : float) :
  is_finite x = true -> (0 <? x)%float = true -> json_number x = VNum x.
Proof.
  intros Hfin Hpos. unfold json_number.
  unfold is_finite in Hfin. apply negb_true_iff in Hfin. rewrite Hfin.
  rewrite (positive_not_zero _ Hpos). reflexivity.
Qed.

Lemma truthy_positive (x : float) :
  is_finite x = true -> (0 <? x)%float = true -> truthy (VNum x) = true.
Proof.
  intros Hfin Hpos. cbn [truthy].
  rewrite (positive_not_zero _ Hpos), (finite_not_nan _ Hfin). reflexivity.
Qed.

Lemma to_json_exportable p : exportable p -> to_json (stock_of p) = stock_of p.
Proof.
  intros (_ & Hq & Hq' & Hc & Hc'). unfold stock_of. cbn [to_json].
  rewrite (json_number_exact _ Hq Hq'), (json_number_exact _ Hc Hc'). reflexivity.
Qed.

Lemma to_json_positions (ps : list Position) :
  Forall exportable ps ->
  List.map to_json (stock_of <$> ps) = stock_of <$> ps.
Proof.
  induction 1 as [| p ps Hp _ IH]; [reflexivity |].
  change (stock_of <$> p :: ps) with (stock_of p :: (stock_of <$> ps)).
  cbn [List.map]. rewrite (to_json_exportable _ Hp), IH. reflexivity.
Qed.

Lemma to_json_ledger (ps : list Position) :
  Forall exportable ps ->
  to_json (VArr (stock_of <$> ps)) = VArr (stock_of <$> ps).
Proof.
  intros Hall. cbn [to_json]. rewrite (to_json_positions _ Hall). reflexivity.
Qed.

Lemma validItem_exportable p : exportable p -> validItem (stock_of p) = Ok true.
Proof.
  intros (Hs & Hq & Hq' & Hc & Hc'). unfold validItem.
  rewrite get_symbol. cbn [rbind]. unfold js_and at 1.
  apply String.eqb_neq in Hs. cbn [truthy]. rewrite Hs. cbn [negb].
  rewrite get_qty. cbn [rbind]. unfold js_and.
  rewrite (truthy_positive _ Hq Hq'), get_cost. cbn [rbind].
  rewrite (truthy_positive _ Hc Hc'). reflexivity.
Qed.

Lemma every_exportable (ps : list Position) :
  Forall exportable ps -> every validItem (stock_of <$> ps) = Ok true.
Proof.
  induction 1 as [| p ps Hp _ IH]; [reflexivity |].
  cbn [fmap list_fmap every]. rewrite (validItem_exportable _ Hp). cbn [rbind].
  exact IH.
Qed.

(** The failures of an import the handler tells apart, none of which writes
    anything. *)
Lemma import_not_json confirmed st :
  import_onload NotJSON confirmed st = (Ok MalformedFile, st).
Proof. reflexivity. Qed.

Lemma import_not_a_list doc confirmed st :
  (forall items, doc <> VArr items) ->
  import_onload (JSON doc) confirmed st = (Ok NotAList, st).
Proof.
  intros Hdoc. destruct doc; try reflexivity. contradiction (Hdoc elems eq_refl).
Qed.

Lemma import_missing_fields items confirmed st :
  every validItem items = Ok false ->
  import_onload (JSON (VArr items)) confirmed st = (Ok SchemaError, st).
Proof.
  intros Hitems. unfold import_onload, try_catch.
  rewrite (bind_lift_Ok _ _ _ _ (eq_refl : JSON_parse (JSON (VArr items)) = Ok (VArr items))).
  rewrite (bind_lift_Ok _ _ _ _ Hitems). reflexivity.
Qed.

Lemma import_throwing_item items e confirmed st :
  every validItem items = Throw e ->
  import_onload (JSON (VArr items)) confirmed st = (Ok MalformedFile, st).
Proof.
  intros Hitems. unfold import_onload, try_catch.
  rewrite (bind_lift_Ok _ _ _ _ (eq_refl : JSON_parse (JSON (VArr items)) = Ok (VArr items))).
  unfold bind, lift. rewrite Hitems. reflexivity.
Qed.

(** C5 at the file [[null]].  The text parses, to a list; its element has no
    [symbol], reading which throws; the handler answers 'Error parsing JSON
    file.' and leaves the state as it was. *)
Theorem import_null_element_misreported confirmed st :
  JSON_parse (JSON (VArr [VNull])) = Ok (VArr [VNull]) /\
  validItem VNull = Throw TypeError /\
  import_onload (JSON (VArr [VNull])) confirmed st = (Ok MalformedFile, st).
Proof.
  split; [reflexivity |]. split; [reflexivity |].
  apply (import_throwing_item [VNull] TypeError). reflexivity.
Qed.

(** A list whose fields are all truthy passes the validation whatever their
    types: here the cost is [true], the ledger is replaced and persisted, the
    drawing of the table then throws, and the user is told 'Error parsing JSON
    file.'. *)
Lemma import_applied_then_reported_malformed :
  import_onload
    (JSON (VArr [VObj [("symbol", VStr "A"); ("qty", VNum 1); ("cost", VBool true)]%string]))
    true emptyState =
  (Ok MalformedFile,
   mkState [VObj [("symbol", VStr "A"); ("qty", VNum 1); ("cost", VBool true)]%string] ∅
           (Some (JSON (VArr [VObj [("symbol", VStr "A"); ("qty", VNum 1);
                                    ("cost", VBool true)]%string])))
           [] []).
Proof. vm_compute. reflexivity. Qed.

Lemma saveData_run st :
  saveData st = (Ok tt, set_localStorage (JSON_stringify (VArr (portfolio st))) st).
Proof. reflexivity. Qed.

Lemma import_restores st (ps : list Position) (prices : gmap string PriceRecord) :
  Forall exportable ps ->
  stockData st = record_of <$> prices ->
  import_onload (JSON (VArr (stock_of <$> ps))) true st =
  (Ok Restored,
   mkState (stock_of <$> ps) (stockData st)
           (Some (JSON (VArr (stock_of <$> ps)))) (started st ++ [FetchAll]) (trace st)).
Proof.
  intros Hall Hcache. unfold import_onload, try_catch.
  rewrite (bind_lift_Ok _ _ _ _
             (eq_refl : JSON_parse (JSON (VArr (stock_of <$> ps))) = Ok (VArr (stock_of <$> ps)))).
  rewrite (bind_lift_Ok _ _ _ _ (every_exportable _ Hall)).
  rewrite bind_modify. unfold bind at 1. rewrite saveData_run.
  cbn [portfolio set_portfolio]. unfold JSON_stringify.
  rewrite (to_json_ledger _ Hall).
  set (st1 := set_localStorage _ _).
  unfold bind at 1.
  rewrite (renderTable_typed st1 ps prices) by (subst st1; assumption || reflexivity).
  unfold bind at 1.
  rewrite (updateSummary_typed st1 ps prices) by (subst st1; assumption || reflexivity).
  reflexivity.
Qed.

(** C6 (amended).  For a ledger that is not empty and whose Positions each
    have a symbol and a finite quantity and a finite cost, both above 0, the
    export handler offers a file, and importing that file, the replacement
    being confirmed, reports success and leaves exactly that ledger, its
    Positions in the same order. *)
Theorem export_import_round_trip st st0 (ps : list Position)
    (prices : gmap string PriceRecord) :
  ps <> [] ->
  Forall exportable ps ->
  portfolio st = stock_of <$> ps ->
  stockData st0 = record_of <$> prices ->
  exists text st',
    export_click st = Some text /\
    import_onload text true st0 = (Ok Restored, st') /\
    portfolio st' = stock_of <$> ps.
Proof.
  intros Hne Hall Hport Hcache.
  exists (JSON (VArr (stock_of <$> ps))). eexists. split; [| split].
  - unfold export_click. rewrite Hport.
    destruct ps as [| p ps]; [contradiction |].
    change (stock_of <$> p :: ps) with (stock_of p :: (stock_of <$> ps)).
    cbv beta iota. unfold JSON_stringify.
    change (stock_of p :: (stock_of <$> ps)) with (stock_of <$> p :: ps).
    rewrite (to_json_ledger _ Hall). reflexivity.
  - apply (import_restores st0 ps prices Hall Hcache).
  - reflexivity.
Qed.

Lemma export_import_round_trip_example :
  exists text st',
    export_click (mkState [stock_of aapl; stock_of msft] aaplQuoted None [] []) = Some text /\
    import_onload text true emptyState = (Ok Restored, st') /\
    portfolio st' = [stock_of aapl; stock_of msft].
Proof.
  apply (export_import_round_trip
           (mkState [stock_of aapl; stock_of msft] aaplQuoted None [] [])
           emptyState [aapl; msft] ∅).
  - discriminate.
  - repeat constructor; try discriminate; reflexivity.
  - reflexivity.
  - reflexivity.
Defined.

(** C6 as stated fails.  An empty ledger is not exported at all.  A Position
    bought at no cost, which the form accepts, is exported with a cost of 0,
    and one whose quantity is infinite with a quantity of [null]: the import
    of either file answers 'Invalid file format: Missing required fields.'
    and restores nothing. *)
Lemma export_import_counterexample :
  export_click emptyState = None /\
  (form_submit "AAPL" 10 0 emptyState =
     (Ok Added, mkState [stock_of gift] ∅ (Some (JSON (VArr [stock_of gift])))
                        [FetchOne (VStr "AAPL")] []) /\
   export_click (mkState [stock_of gift] ∅ None [] []) =
     Some (JSON (VArr [stock_of gift])) /\
   import_onload (JSON (VArr [stock_of gift])) true emptyState =
     (Ok SchemaError, emptyState)) /\
  (export_click (mkState [stock_of (mkPosition "AAPL" infinity 150)] ∅ None [] []) =
     Some (JSON (VArr [VObj [("symbol", VStr "AAPL"); ("qty", VNull);
                             ("cost", VNum 150)]%string])) /\
   import_onload (JSON (VArr [VObj [("symbol", VStr "AAPL"); ("qty", VNull);
                                    ("cost", VNum 150)]%string])) true emptyState =
     (Ok SchemaError, emptyState)).
Proof. vm_compute. repeat split. Qed.

(** ** Beyond the claims: the ledger *)

Lemma first_or_absent sym (ps : list Position) :
  Forall (fun p => symbol p <> sym) ps \/ exists i p, first_at sym ps i p.
Proof.
  induction ps as [| p0 ps IH]; [left; constructor |].
  destruct (String.eqb (symbol p0) sym) eqn:Heq.
  - right. exists 0, p0. apply String.eqb_eq in Heq.
    split; [reflexivity | split; [exact Heq | intros j p' Hj; lia]].
  - apply String.eqb_neq in Heq. destruct IH as [Habs | (i & p & Hi & Hs & Hbefore)].
    + left. constructor; assumption.
    + right. exists (S i), p. split; [exact Hi | split; [exact Hs |]].
      intros [| j] p' Hj Hp'.
      * injection Hp' as <-. exact Heq.
      * apply (Hbefore j p'); [lia | exact Hp'].
Qed.

Lemma mergeInto_absent sym m (ps : list Position) :
  Forall (fun p => symbol p <> sym) ps ->
  mergeInto sym m ps = ps ++ [mkPosition sym (fst m) (snd m)].
Proof.
  induction 1 as [| p ps Hp _ IH]; [reflexivity |].
  cbn [mergeInto app]. apply String.eqb_neq in Hp. rewrite Hp, IH. reflexivity.
Qed.

Lemma mergeInto_first sym m (ps : list Position) : forall i p,
  first_at sym ps i p -> mergeInto sym m ps = <[i := merged p m]> ps.
Proof.
  induction ps as [| p0 ps IH]; intros i p (Hi & Hs & Hbefore); [discriminate |].
  cbn [mergeInto]. destruct i as [| i].
  - injection Hi as ->. apply String.eqb_eq in Hs. rewrite Hs. reflexivity.
  - assert (Hp0 : symbol p0 <> sym) by (apply (Hbefore 0 p0); [lia | reflexivity]).
    apply String.eqb_neq in Hp0. rewrite Hp0. cbn [insert list_insert]. f_equal.
    apply IH. split; [exact Hi | split; [exact Hs |]].
    intros j p' Hj Hp'. apply (Hbefore (S j) p'); [lia | exact Hp'].
Qed.

Lemma addStock_portfolio_typed st (ps : list Position) sym q c :
  portfolio st = stock_of <$> ps ->
  portfolio (snd (addStock sym q c st)) = stock_of <$> mergeInto sym (q, c) ps.
Proof.
  intros Hport. destruct (first_or_absent sym ps) as [Habs | (i & p & Hfirst)].
  - rewrite (addStock_portfolio_new st ps sym q c Hport Habs).
    rewrite (mergeInto_absent sym (q, c) ps Habs). reflexivity.
  - rewrite (addStock_portfolio_found st ps sym q c i p Hport Hfirst).
    rewrite (mergeInto_first sym (q, c) ps i p Hfirst). reflexivity.
Qed.

Lemma bind_assoc {A B C} (m : M A) (k1 : A -> M B) (k2 : B -> M C) st :
  bind (bind m k1) k2 st = bind m (fun a => bind (k1 a) k2) st.
Proof. unfold bind. destruct (m st) as [[a | e |] st']; reflexivity. Qed.

(** Runs the next read of a statement, given its result. *)
Ltac step H := rewrite ?bind_assoc; rewrite (bind_lift_Ok _ _ _ _ H); cbv beta iota.

Lemma addStock_tail_typed st (ps : list Position) (prices : gmap string PriceRecord) sym :
  portfolio st = stock_of <$> ps ->
  stockData st = record_of <$> prices ->
  (saveData;; renderTable;; modify (spawn_task (FetchOne (VStr sym)))) st =
  (Ok tt, mkState (portfolio st) (stockData st)
                  (Some (JSON_stringify (VArr (portfolio st))))
                  (started st ++ [FetchOne (VStr sym)]) (trace st)).
Proof.
  intros Hport Hcache. unfold bind at 1. rewrite saveData_run.
  set (st1 := set_localStorage _ _). unfold bind at 1.
  rewrite (renderTable_typed st1 ps prices Hport Hcache). reflexivity.
Qed.

Lemma addStock_typed st (ps : list Position) (prices : gmap string PriceRecord) sym q c :
  portfolio st = stock_of <$> ps ->
  stockData st = record_of <$> prices ->
  addStock sym q c st =
  (Ok tt, mkState (stock_of <$> mergeInto sym (q, c) ps) (stockData st)
                  (Some (JSON_stringify (VArr (stock_of <$> mergeInto sym (q, c) ps))))
                  (started st ++ [FetchOne (VStr sym)]) (trace st)).
Proof.
  intros Hport Hcache. unfold addStock. rewrite bind_gets, Hport.
  destruct (first_or_absent sym ps) as [Habs | (i & p & Hfirst)].
  - rewrite (bind_lift_Ok _ _ _ _ (find_symbol_absent _ _ Habs)).
    rewrite bind_modify, (mergeInto_absent sym (q, c) ps Habs). cbn [fst snd].
    assert (Hnew : (stock_of <$> ps) ++
                   [VObj [("symbol", VStr sym); ("qty", VNum q); ("cost", VNum c)]%string] =
                   stock_of <$> (ps ++ [mkPosition sym q c])).
    { rewrite fmap_app. reflexivity. }
    rewrite Hnew.
    match goal with
    | |- _ ?s = _ =>
        rewrite (addStock_tail_typed s (ps ++ [mkPosition sym q c]) prices sym eq_refl Hcache)
    end.
    reflexivity.
  - rewrite (bind_lift_Ok _ _ _ _ (find_symbol_first _ _ _ _ Hfirst)).
    rewrite (mergeInto_first sym (q, c) ps i p Hfirst).
    pose proof Hfirst as (Hi & Hs & _).
    cbv beta iota.
    rewrite list_lookup_fmap, Hi. cbn [fmap option_fmap option_map default].
    step (get_qty p). step (get_cost p).
    step (eq_refl : js_mul (VNum (qty p)) (VNum (cost p)) = Ok (qty p * cost p)%float).
    step (eq_refl : js_add (VNum (qty p)) (VNum q) = Ok (VNum (qty p + q)%float)).
    step (eq_refl : js_div (VNum (qty p * cost p + q * c)) (VNum (qty p + q)) =
                    Ok ((qty p * cost p + q * c) / (qty p + q))%float).
    rewrite ?bind_assoc, bind_modify.
    assert (Hnew : <[i := assign (assign (stock_of p) "cost"
                                    (VNum ((qty p * cost p + q * c) / (qty p + q))))
                            "qty" (VNum (qty p + q))]> (stock_of <$> ps) =
                   stock_of <$> <[i := merged p (q, c)]> ps).
    { rewrite list_fmap_insert. unfold merged, stock_of. cbn. rewrite Hs. reflexivity. }
    unfold id. rewrite Hnew.
    match goal with
    | |- _ ?s = _ =>
        rewrite (addStock_tail_typed s (<[i := merged p (q, c)]> ps) prices sym eq_refl Hcache)
    end.
    reflexivity.
Qed.

Lemma deleteStock_typed st (ps : list Position) (prices : gmap string PriceRecord) sym :
  portfolio st = stock_of <$> ps ->
  stockData st = record_of <$> prices ->
  deleteStock sym st =
  (Ok tt, mkState (stock_of <$> without sym ps) (stockData st)
                  (Some (JSON_stringify (VArr (stock_of <$> without sym ps))))
                  (started st) (trace st)).
Proof.
  intros Hport Hcache. unfold deleteStock. rewrite bind_gets, Hport.
  step (filterR_typed sym ps). rewrite bind_modify.
  unfold bind at 1. rewrite saveData_run.
  set (st1 := set_localStorage _ _). unfold bind at 1.
  rewrite (renderTable_typed st1 (without sym ps) prices eq_refl Hcache).
  rewrite (updateSummary_typed st1 (without sym ps) prices eq_refl Hcache).
  reflexivity.
Qed.

Lemma mergeInto_symbols sym m (ps : list Position) :
  symbol <$> mergeInto sym m ps =
  (if bool_decide (sym ∈ symbol <$> ps) then symbol <$> ps
   else (symbol <$> ps) ++ [sym]).
Proof.
  induction ps as [| p ps IH].
  - reflexivity.
  - cbn [mergeInto]. destruct (String.eqb (symbol p) sym) eqn:Heq.
    + apply String.eqb_eq in Heq. rewrite bool_decide_eq_true_2.
      * reflexivity.
      * rewrite fmap_cons, Heq. apply list_elem_of_here.
    + apply String.eqb_neq in Heq. rewrite !fmap_cons, IH.
      destruct (bool_decide (sym ∈ symbol <$> ps)) eqn:Hin.
      * apply bool_decide_eq_true_1 in Hin. rewrite bool_decide_eq_true_2; [reflexivity |].
        apply list_elem_of_further. exact Hin.
      * apply bool_decide_eq_false_1 in Hin. rewrite bool_decide_eq_false_2; [reflexivity |].
        intros Hc. apply elem_of_cons in Hc as [Hc | Hc]; [congruence | contradiction].
Qed.

Lemma without_symbols sym (ps : list Position) :
  (sym ∉ symbol <$> without sym ps) /\
  (forall s, s ∈ symbol <$> without sym ps -> s ∈ symbol <$> ps) /\
  (NoDup (symbol <$> ps) -> NoDup (symbol <$> without sym ps)).
Proof.
  induction ps as [| p ps (IH1 & IH2 & IH3)].
  - split; [apply not_elem_of_nil |]. split; [auto |]. auto.
  - unfold without in *. cbn [List.filter].
    destruct (String.eqb (symbol p) sym) eqn:Heq; cbn [negb].
    + split; [exact IH1 |]. split.
      * intros s Hs. rewrite fmap_cons. apply list_elem_of_further. apply IH2. exact Hs.
      * rewrite fmap_cons. intros Hnd. apply NoDup_cons in Hnd as [_ Hnd]. apply IH3. exact Hnd.
    + apply String.eqb_neq in Heq. rewrite !fmap_cons. split; [| split].
      * intros Hc. apply elem_of_cons in Hc as [Hc | Hc]; [congruence | contradiction].
      * intros s Hs. apply elem_of_cons in Hs as [-> | Hs];
          [apply list_elem_of_here | apply list_elem_of_further; apply IH2; exact Hs].
      * intros Hnd. apply NoDup_cons in Hnd as [Hp Hnd]. apply NoDup_cons. split.
        -- intros Hc. apply Hp. apply IH2. exact Hc.
        -- apply IH3. exact Hnd.
Qed.

Lemma without_absent sym (ps : list Position) :
  Forall (fun p => symbol p <> sym) ps -> without sym ps = ps.
Proof.
  induction 1 as [| p ps Hp _ IH]; [reflexivity |].
  unfold without in *. cbn [List.filter]. apply String.eqb_neq in Hp. rewrite Hp.
  cbn [negb]. rewrite IH. reflexivity.
Qed.

Lemma without_mergeInto sym m (ps : list Position) :
  without sym (mergeInto sym m ps) = without sym ps.
Proof.
  induction ps as [| p ps IH].
  - unfold without. cbn. rewrite String.eqb_refl. reflexivity.
  - cbn [mergeInto]. destruct (String.eqb (symbol p) sym) eqn:Heq.
    + unfold without. cbn [List.filter merged symbol]. rewrite Heq. reflexivity.
    + unfold without in *. cbn [List.filter]. rewrite Heq. cbn [negb]. rewrite IH.
      reflexivity.
Qed.

(** X1.  On a well-typed state [addStock] returns normally and leaves the
    ledger merged: the first Position of the symbol takes the merge, or a new
    Position comes last.  The persisted copy is the new ledger, one fetch is
    started for the symbol, the cache is not touched, and the Positions of the
    other symbols are the same, in the same order. *)
Theorem addStock_refines_mergeInto st (ps : list Position)
    (prices : gmap string PriceRecord) sym q c :
  portfolio st = stock_of <$> ps ->
  stockData st = record_of <$> prices ->
  addStock sym q c st =
  (Ok tt, mkState (stock_of <$> mergeInto sym (q, c) ps) (stockData st)
                  (Some (JSON_stringify (VArr (stock_of <$> mergeInto sym (q, c) ps))))
                  (started st ++ [FetchOne (VStr sym)]) (trace st)) /\
  without sym (mergeInto sym (q, c) ps) = without sym ps.
Proof.
  intros Hport Hcache. split.
  - apply (addStock_typed st ps prices sym q c Hport Hcache).
  - apply without_mergeInto.
Qed.

Lemma addStock_refines_mergeInto_example :
  addStock "MSFT" 2 300 (mkState [stock_of aapl] aaplQuoted None [] []) =
  (Ok tt, mkState [stock_of aapl; stock_of msft] aaplQuoted
                  (Some (JSON (VArr [stock_of aapl; stock_of msft])))
                  [FetchOne (VStr "MSFT")] []).
Proof.
  exact (proj1 (addStock_refines_mergeInto
                  (mkState [stock_of aapl] aaplQuoted None [] []) [aapl]
                  {["AAPL"%string := mkPriceRecord (Some 180%float) 5 VUndefined VUndefined]}
                  "MSFT" 2%float 300%float eq_refl eq_refl)).
Defined.

(** X2.  A ledger with one Position per symbol keeps one Position per symbol:
    after [addStock] it is well typed, holds the symbol, and its symbols are
    the former ones, with the new symbol last if it was not there; after
    [deleteStock] it is well typed, lacks the symbol, and holds no symbol it
    did not hold. *)
Theorem ledger_stays_keyed st (ps : list Position) sym :
  portfolio st = stock_of <$> ps ->
  NoDup (symbol <$> ps) ->
  (forall q c, exists ps',
     portfolio (snd (addStock sym q c st)) = stock_of <$> ps' /\
     NoDup (symbol <$> ps') /\ sym ∈ symbol <$> ps' /\
     (forall s, s ∈ symbol <$> ps' <-> s ∈ symbol <$> ps \/ s = sym)) /\
  (exists ps',
     portfolio (snd (deleteStock sym st)) = stock_of <$> ps' /\
     NoDup (symbol <$> ps') /\ (sym ∉ symbol <$> ps') /\
     (forall s, s ∈ symbol <$> ps' -> s ∈ symbol <$> ps)).
Proof.
  intros Hport Hnd. split.
  - intros q c. exists (mergeInto sym (q, c) ps).
    split; [apply addStock_portfolio_typed; exact Hport |].
    rewrite mergeInto_symbols.
    destruct (bool_decide (sym ∈ symbol <$> ps)) eqn:Hin.
    + apply bool_decide_eq_true_1 in Hin. split; [exact Hnd |]. split; [exact Hin |].
      intros s. split; [auto |]. intros [Hs | ->]; assumption.
    + apply bool_decide_eq_false_1 in Hin. split; [| split].
      * apply NoDup_app. split; [exact Hnd |]. split.
        -- intros x Hx Hc. apply list_elem_of_singleton in Hc. subst x. contradiction.
        -- apply NoDup_singleton.
      * apply elem_of_app. right. apply list_elem_of_singleton. reflexivity.
      * intros s. rewrite elem_of_app, list_elem_of_singleton. reflexivity.
  - exists (without sym ps).
    split; [apply deleteStock_portfolio; exact Hport |].
    destruct (without_symbols sym ps) as (H1 & H2 & H3).
    split; [apply H3; exact Hnd |]. split; [exact H1 | exact H2].
Qed.

Lemma ledger_stays_keyed_example :
  (exists ps',
     portfolio (snd (addStock "AAPL" 5 200 (mkState [stock_of aapl; stock_of msft] ∅ None [] []))) =
       stock_of <$> ps' /\
     NoDup (symbol <$> ps') /\ "AAPL"%string ∈ symbol <$> ps' /\
     (forall s, s ∈ symbol <$> ps' <->
                s ∈ symbol <$> [aapl; msft] \/ s = "AAPL"%string)).
Proof.
  refine (proj1 (ledger_stays_keyed (mkState [stock_of aapl; stock_of msft] ∅ None [] [])
                   [aapl; msft] "AAPL" eq_refl _) 5%float 200%float).
  cbn. apply NoDup_cons. split; [| apply NoDup_singleton].
  intros H. apply list_elem_of_singleton in H. discriminate H.
Defined.

(** X3.  On a well-typed state [deleteStock] returns normally, drops every
    Position of the symbol and keeps the others in their order; the persisted
    copy is the new ledger and no fetch is started.  When the ledger has no
    Position of the symbol, the ledger is left as it was. *)
Theorem deleteStock_refines_without st (ps : list Position)
    (prices : gmap string PriceRecord) sym :
  portfolio st = stock_of <$> ps ->
  stockData st = record_of <$> prices ->
  deleteStock sym st =
  (Ok tt, mkState (stock_of <$> without sym ps) (stockData st)
                  (Some (JSON_stringify (VArr (stock_of <$> without sym ps))))
                  (started st) (trace st)) /\
  (Forall (fun p => symbol p <> sym) ps ->
   portfolio (snd (deleteStock sym st)) = portfolio st).
Proof.
  intros Hport Hcache.
  pose proof (deleteStock_typed st ps prices sym Hport Hcache) as Hrun.
  split; [exact Hrun |].
  intros Habs. rewrite Hrun. cbn [snd portfolio].
  rewrite (without_absent sym ps Habs), Hport. reflexivity.
Qed.

Lemma deleteStock_refines_without_example :
  deleteStock "AAPL" (mkState [stock_of aapl; stock_of msft] aaplQuoted None [] []) =
  (Ok tt, mkState [stock_of msft] aaplQuoted (Some (JSON (VArr [stock_of msft]))) [] []).
Proof.
  exact (proj1 (deleteStock_refines_without
                  (mkState [stock_of aapl; stock_of msft] aaplQuoted None [] [])
                  [aapl; msft]
                  {["AAPL"%string := mkPriceRecord (Some 180%float) 5 VUndefined VUndefined]}
                  "AAPL" eq_refl eq_refl)).
Defined.

(** X4.  Deleting a symbol after a merge for it leaves the ledger without the
    Positions of the symbol, whatever the merge was: on a ledger that had no
    Position of the symbol, adding then deleting gives the ledger back. *)
Theorem addStock_then_deleteStock st (ps : list Position)
    (prices : gmap string PriceRecord) sym q c :
  portfolio st = stock_of <$> ps ->
  stockData st = record_of <$> prices ->
  portfolio (snd (deleteStock sym (snd (addStock sym q c st)))) =
    stock_of <$> without sym ps /\
  (Forall (fun p => symbol p <> sym) ps ->
   portfolio (snd (deleteStock sym (snd (addStock sym q c st)))) = portfolio st).
Proof.
  intros Hport Hcache.
  rewrite (addStock_typed st ps prices sym q c Hport Hcache). cbn [snd].
  match goal with
  | |- context [deleteStock sym ?s] =>
      rewrite (deleteStock_typed s (mergeInto sym (q, c) ps) prices sym eq_refl Hcache)
  end.
  cbn [snd portfolio]. rewrite without_mergeInto. split; [reflexivity |].
  intros Habs. rewrite (without_absent sym ps Habs), Hport. reflexivity.
Qed.

Lemma addStock_then_deleteStock_example :
  portfolio (snd (deleteStock "MSFT"
               (snd (addStock "MSFT" 2 300 (mkState [stock_of aapl] aaplQuoted None [] []))))) =
  [stock_of aapl].
Proof.
  refine (proj2 (addStock_then_deleteStock
                   (mkState [stock_of aapl] aaplQuoted None [] []) [aapl]
                   {["AAPL"%string := mkPriceRecord (Some 180%float) 5 VUndefined VUndefined]}
                   "MSFT" 2%float 300%float eq_refl eq_refl) _).
  repeat constructor. discriminate.
Defined.

(** ** Beyond the claims: the persisted copy *)

Lemma reloads_of st st' :
  portfolio st' = portfolio st -> localStorage st' = localStorage st ->
  reloads st -> reloads st'.
Proof. unfold reloads. intros -> ->. auto. Qed.

Lemma saveData_reloads st : reloads (snd (saveData st)).
Proof. reflexivity. Qed.

Lemma keeps_frame {A} (m : M A) :
  preserves portfolio m -> preserves localStorage m -> keeps reloads m.
Proof. intros Hp Hl st Hst. apply (reloads_of st); [apply Hp | apply Hl | exact Hst]. Qed.

Lemma saveData_then_reloads {B} (k : M B) st :
  preserves portfolio k -> preserves localStorage k ->
  reloads (snd ((saveData;; k) st)).
Proof.
  intros Hp Hl. unfold bind. rewrite saveData_run.
  apply (keeps_frame k Hp Hl). apply saveData_reloads.
Qed.

Lemma writesLast_lift {A B} (r : result A) (k : A -> M B) :
  (forall a, writesLast (k a)) -> writesLast (bind (lift r) k).
Proof.
  intros Hk st. destruct r as [a | e |]; [apply Hk | right; reflexivity | right; reflexivity].
Qed.

Lemma writesLast_modify (g : State -> State) : writesLast (modify g).
Proof. intros st. left. eexists _, _. reflexivity. Qed.

Lemma writesLast_ret {A} (a : A) : writesLast (ret a).
Proof. intros st. right. reflexivity. Qed.

Lemma writesLast_then {A B} (P : State -> Prop) (body : M A) (rest : M B) st :
  writesLast body -> (forall st', P (snd (rest st'))) -> P st ->
  P (snd (bind body (fun _ => rest) st)).
Proof.
  intros Hbody Hrest Hst. unfold bind. destruct (Hbody st) as [(a & st' & ->) | Hsame].
  - apply Hrest.
  - destruct (body st) as [[a | e |] st'] eqn:Hb; cbn [snd] in *; subst st';
      [apply Hrest | exact Hst | exact Hst].
Qed.

Lemma addStock_keeps_reloads sym q c : keeps reloads (addStock sym q c).
Proof.
  intros st Hst. unfold addStock. rewrite bind_gets.
  destruct (find_symbol sym (portfolio st)) as [existing | e |] eqn:Hfind;
    [| exact Hst | exact Hst].
  rewrite (bind_lift_Ok _ _ _ _ eq_refl).
  apply writesLast_then.
  - destruct existing as [i |].
    + repeat (apply writesLast_lift; intro). apply writesLast_modify.
    + apply writesLast_modify.
  - intros st'. apply saveData_then_reloads; frame.
  - exact Hst.
Qed.

Lemma deleteStock_keeps_reloads sym : keeps reloads (deleteStock sym).
Proof.
  intros st Hst. unfold deleteStock. rewrite bind_gets.
  match goal with
  | |- context [lift ?r] => destruct r as [kept | e |] eqn:Hkept; [| exact Hst | exact Hst]
  end.
  rewrite (bind_lift_Ok _ _ _ _ eq_refl), bind_modify.
  apply saveData_then_reloads; frame.
Qed.

Lemma try_catch_ret_state {A} (m : M A) (x : A) st :
  snd (try_catch m (fun _ => ret x) st) = snd (m st).
Proof. unfold try_catch. destruct (m st) as [[a | e |] st']; reflexivity. Qed.

Lemma import_onload_keeps_reloads text confirmed : keeps reloads (import_onload text confirmed).
Proof.
  intros st Hst. unfold import_onload. rewrite try_catch_ret_state.
  destruct text as [doc |]; [| exact Hst].
  rewrite (bind_lift_Ok _ _ _ _ (eq_refl : JSON_parse (JSON doc) = Ok doc)).
  destruct doc; try exact Hst.
  destruct (every validItem elems) as [[|] | e |]; try exact Hst.
  rewrite (bind_lift_Ok _ _ _ _ eq_refl).
  destruct confirmed; [| exact Hst].
  rewrite bind_modify. apply saveData_then_reloads; frame.
Qed.

Lemma fetchStockData_frame {C} (f : State -> C) symbol response :
  (forall c st, f (set_stockData c st) = f st) ->
  (forall e st, f (log_event e st) = f st) ->
  preserves f (fetchStockData symbol response).
Proof.
  intros Hc Hl. unfold fetchStockData.
  repeat first
    [ apply preserves_bind; [ | intro ]
    | apply preserves_try_catch; [ | intro ]
    | apply preserves_ret
    | apply preserves_lift
    | apply preserves_gets
    | apply renderTable_preserves
    | apply updateSummary_preserves
    | apply preserves_modify; intro; first [apply Hc | apply Hl] ].
Qed.

Lemma fetchAllLoop_frame {C} (f : State -> C) responses stocks :
  (forall c st, f (set_stockData c st) = f st) ->
  (forall e st, f (log_event e st) = f st) ->
  forall n, preserves f (fetchAllLoop responses n stocks).
Proof.
  intros Hc Hl. induction stocks as [| stock rest IH]; intros n.
  - apply preserves_ret.
  - cbn [fetchAllLoop]. apply preserves_bind; [apply preserves_lift | intro].
    apply preserves_bind; [apply fetchStockData_frame; assumption | intro].
    apply preserves_bind; [apply preserves_modify; intro; apply Hl | intro].
    apply IH.
Qed.

Lemma fetchAllData_frame {C} (f : State -> C) responses :
  (forall c st, f (set_stockData c st) = f st) ->
  (forall e st, f (log_event e st) = f st) ->
  preserves f (fetchAllData responses).
Proof.
  intros Hc Hl. unfold fetchAllData.
  apply preserves_bind; [apply preserves_gets | intro].
  apply fetchAllLoop_frame; assumption.
Qed.

(** X5.  Every handler keeps the persisted copy in step with the ledger: in a
    state where what a reload of the page would start from is the current
    ledger as JSON writes it, this is still so after the handler, whatever its
    outcome, an exception included.  The state with an empty ledger and
    nothing persisted is such a state; nothing is said of a state started
    from an arbitrary stored blob. *)
Theorem handlers_keep_reloads :
  reloads emptyState /\
  (forall sym q c, keeps reloads (addStock sym q c)) /\
  (forall sym, keeps reloads (deleteStock sym)) /\
  (forall ticker q c, keeps reloads (form_submit ticker q c)) /\
  (forall text confirmed, keeps reloads (import_onload text confirmed)) /\
  (forall symbol response, keeps reloads (fetchStockData symbol response)) /\
  (forall responses, keeps reloads (fetchAllData responses)).
Proof.
  split; [reflexivity |].
  split; [apply addStock_keeps_reloads |].
  split; [apply deleteStock_keeps_reloads |].
  split.
  { intros ticker q c st Hst. unfold form_submit.
    destruct (negb (String.eqb ticker "") && (0 <? q)%float && (0 <=? c)%float);
      [| exact Hst].
    pose proof (addStock_keeps_reloads ticker q c st Hst) as Hadd.
    unfold bind. destruct (addStock ticker q c st) as [[a | e |] st']; exact Hadd. }
  split; [apply import_onload_keeps_reloads |].
  split.
  - intros symbol response. apply keeps_frame; apply fetchStockData_frame; reflexivity.
  - intros responses. apply keeps_frame; apply fetchAllData_frame; reflexivity.
Qed.

Lemma handlers_keep_reloads_example :
  reloads (snd (deleteStock "AAPL" (snd (addStock "AAPL" 10 150 emptyState)))).
Proof.
  destruct handlers_keep_reloads as (Hstart & Hadd & Hdelete & _).
  apply Hdelete. apply Hadd. exact Hstart.
Defined.

(** ** Beyond the claims: fetching *)







(** X8.  A body with no chart, or whose chart has no result or an empty list
    of results, as the provider answers for an unknown symbol, makes the
    reading of the fields throw: [fetchStockData] returns normally and only
    the trace shows the request. *)
Theorem fetchStockData_without_result json :
  get json "chart" = Ok VUndefined \/
  (exists chart,
     get json "chart" = Ok chart /\
     (get chart "result" = Ok VNull \/ get chart "result" = Ok VUndefined \/
      get chart "result" = Ok (VArr []))) ->
  quoteRecord json = Throw TypeError /\
  forall sym st,
    fetchStockData (VStr sym) (Ok json) st =
    (Ok tt, log_event (EvSettled sym) (log_event (EvRequest sym) st)).
Proof.
  intros Hbody.
  assert (Hq : quoteRecord json = Throw TypeError).
  { unfold quoteRecord.
    destruct Hbody as [-> | (chart & -> & [Hr | [Hr | Hr]])]; cbn [rbind];
      try rewrite Hr; reflexivity. }
  split; [exact Hq |].
  intros sym st. apply fetchStockData_failed. exists TypeError. exact Hq.
Qed.

Lemma fetchStockData_without_result_example :
  quoteRecord (VObj [("chart", VObj [("result", VNull);
                                     ("error", VObj [("code", VStr "Not Found")])])]%string) =
    Throw TypeError /\
  forall sym st,
    fetchStockData (VStr sym)
      (Ok (VObj [("chart", VObj [("result", VNull);
                                 ("error", VObj [("code", VStr "Not Found")])])]%string)) st =
    (Ok tt, log_event (EvSettled sym) (log_event (EvRequest sym) st)).
Proof.
  apply fetchStockData_without_result.
  right. eexists. split; [reflexivity |]. left. reflexivity.
Defined.

Lemma nan_minus (c : float) : (nan - c)%float = nan.
Proof.
  rewrite <- (SF2Prim_Prim2SF (nan - c)%float), sub_spec.
  replace (Prim2SF nan) with S754_nan by reflexivity.
  unfold SF64sub, SFsub. destruct (Prim2SF c); reflexivity.
Qed.

(** X9.  A body that has everything but the price still counts as an answer:
    the record written has no price and a change that is not a number, and the
    symbol then has no usable price, so its Positions add nothing to the
    current value. *)
Theorem fetchStockData_without_price st (ps : list Position)
    (prices : gmap string PriceRecord) sym json c ts cl :
  portfolio st = stock_of <$> ps ->
  stockData st = record_of <$> prices ->
  (exists chart results result meta indicators quote quote0,
     get json "chart" = Ok chart /\ get chart "result" = Ok results /\
     index0 results = Ok result /\ get result "meta" = Ok meta /\
     get meta "regularMarketPrice" = Ok VUndefined /\
     get meta "chartPreviousClose" = Ok (VNum c) /\
     get result "timestamp" = Ok ts /\ get result "indicators" = Ok indicators /\
     get indicators "quote" = Ok quote /\ index0 quote = Ok quote0 /\
     get quote0 "close" = Ok cl) ->
  exists st',
    fetchStockData (VStr sym) (Ok json) st = (Ok tt, st') /\
    stockData st' = record_of <$> <[sym := mkPriceRecord None nan ts cl]> prices /\
    forall p inv cur has,
      symbol p = sym ->
      summaryStep (stockData st') (inv, cur, has) (stock_of p) =
      Ok ((inv + qty p * cost p)%float, cur, has).
Proof.
  intros Hport Hcache
         (chart & results & result & meta & indicators & quote & quote0 &
          H1 & H2 & H3 & H4 & H5 & H6 & H7 & H8 & H9 & H10 & H11).
  assert (Hans : answers (Ok json) (Some (mkPriceRecord None nan ts cl))).
  { cbn [answers rbind]. unfold quoteRecord.
    rewrite H1; cbn [rbind]. rewrite H2; cbn [rbind]. rewrite H3; cbn [rbind].
    rewrite H4; cbn [rbind]. rewrite H5; cbn [rbind]. rewrite H6; cbn [rbind].
    cbn [js_sub ToNumber ToPrimitive rbind]. rewrite nan_minus.
    rewrite H7; cbn [rbind]. rewrite H8; cbn [rbind]. rewrite H9; cbn [rbind].
    rewrite H10; cbn [rbind]. rewrite H11; cbn [rbind]. reflexivity. }
  rewrite (fetchStockData_answered st ps prices sym _ _ Hport Hcache Hans).
  eexists. split; [reflexivity |]. split; [reflexivity |].
  intros p inv cur has Hs. cbn [snd stockData set_stockData].
  rewrite summaryStep_typed. unfold usable. rewrite Hs, lookup_insert_eq. reflexivity.
Qed.

Lemma fetchStockData_without_price_example :
  exists st',
    fetchStockData (VStr "AAPL")
      (Ok (VObj [("chart",
                  VObj [("result",
                         VArr [VObj [("meta", VObj [("chartPreviousClose", VNum 175)]);
                                     ("timestamp", VArr []);
                                     ("indicators",
                                      VObj [("quote", VArr [VObj [("close", VArr [])]])])]])])]%string))
      (mkState [stock_of aapl] ∅ None [] []) = (Ok tt, st') /\
    stockData st' = record_of <$> <["AAPL"%string := mkPriceRecord None nan (VArr []) (VArr [])]> ∅ /\
    forall p inv cur has,
      symbol p = "AAPL"%string ->
      summaryStep (stockData st') (inv, cur, has) (stock_of p) =
      Ok ((inv + qty p * cost p)%float, cur, has).
Proof.
  apply (fetchStockData_without_price (mkState [stock_of aapl] ∅ None [] []) [aapl] ∅
           "AAPL" _ 175%float (VArr []) (VArr [])).
  - reflexivity.
  - reflexivity.
  - repeat eexists; reflexivity.
Defined.

(** ** Beyond the claims: import *)

Lemma restore_run items st :
  let st1 := set_localStorage (JSON_stringify (VArr items)) (set_portfolio items st) in
  let restore := (modify (set_portfolio items);; saveData;; renderTable;; updateSummary;;
                  modify (spawn_task FetchAll);; ret Restored) in
  restore st = (Ok Restored, spawn_task FetchAll st1) \/
  (exists e, restore st = (Throw e, st1)) \/
  restore st = (Unmodelled, st1).
Proof.
  intros st1 restore. remember (restore st) as res eqn:Hres.
  unfold restore in Hres. rewrite bind_modify in Hres.
  unfold bind at 1 in Hres. rewrite saveData_run in Hres.
  cbv beta iota in Hres. unfold bind at 1 in Hres.
  change (renderTable _) with (renderTable st1) in Hres.
  pose proof (renderTable_state st1) as Hr.
  destruct (renderTable st1) as [[[] | e |] s]; cbn [snd] in Hr; subst s;
    [| right; left; exists e; exact Hres | right; right; exact Hres].
  unfold bind at 1 in Hres.
  pose proof (updateSummary_state st1) as Hu.
  destruct (updateSummary st1) as [[[] | e |] s]; cbn [snd] in Hu; subst s;
    [left | right; left; exists e | right; right]; exact Hres.
Qed.

Lemma import_confirmed_run items st :
  every validItem items = Ok true ->
  let st1 := set_localStorage (JSON_stringify (VArr items)) (set_portfolio items st) in
  import_onload (JSON (VArr items)) true st = (Ok Restored, spawn_task FetchAll st1) \/
  import_onload (JSON (VArr items)) true st = (Ok MalformedFile, st1) \/
  import_onload (JSON (VArr items)) true st = (Unmodelled, st1).
Proof.
  intros Hvalid st1. unfold import_onload, try_catch.
  rewrite (bind_lift_Ok _ _ _ _ (eq_refl : JSON_parse (JSON (VArr items)) = Ok (VArr items))).
  rewrite (bind_lift_Ok _ _ _ _ Hvalid). cbv beta iota.
  fold st1.
  destruct (restore_run items st) as [Hrun | [[e Hrun] | Hrun]]; cbv zeta in Hrun;
    fold st1 in Hrun; rewrite Hrun; [left | right; left | right; right]; reflexivity.
Qed.

(** X10.  An import whose confirmation is refused changes nothing, whatever
    the file holds. *)
Theorem import_declined_changes_nothing text st :
  snd (import_onload text false st) = st /\
  (forall e, fst (import_onload text false st) <> Throw e).
Proof.
  unfold import_onload, try_catch.
  destruct text as [doc |]; [| split; [reflexivity | discriminate]].
  rewrite (bind_lift_Ok _ _ _ _ (eq_refl : JSON_parse (JSON doc) = Ok doc)).
  destruct doc; try (split; [reflexivity | discriminate]).
  unfold bind, lift.
  destruct (every validItem elems) as [[|] | e |]; split; (reflexivity || discriminate).
Qed.

(** X11.  The import handler never throws.  When it answers that fields are
    missing, that the file is not a list, or nothing because the confirmation
    was refused, the state is as it was.  When it answers that the portfolio
    was restored, the file was a list all of whose elements passed the
    validation, the ledger is that list, the persisted copy is the new ledger
    and a refresh of all prices is started. *)
Theorem import_onload_outcomes text confirmed st :
  (forall e, fst (import_onload text confirmed st) <> Throw e) /\
  (fst (import_onload text confirmed st) = Ok SchemaError \/
   fst (import_onload text confirmed st) = Ok NotAList \/
   fst (import_onload text confirmed st) = Ok Declined ->
   snd (import_onload text confirmed st) = st) /\
  (fst (import_onload text confirmed st) = Ok Restored ->
   exists items,
     text = JSON (VArr items) /\ confirmed = true /\
     every validItem items = Ok true /\
     snd (import_onload text confirmed st) =
     mkState items (stockData st) (Some (JSON_stringify (VArr items)))
             (started st ++ [FetchAll]) (trace st)).
Proof.
  destruct text as [doc |].
  2: { split; [discriminate |]. split; [reflexivity |]. discriminate. }
  destruct doc as [| | b | x | s | items | props];
    try (split; [discriminate |]; split; [reflexivity |]; discriminate).
  destruct (every validItem items) as [[|] | e |] eqn:Hvalid.
  - destruct confirmed.
    + destruct (import_confirmed_run items st Hvalid) as [-> | [-> | ->]]; cbn [fst snd].
      * split; [discriminate |]. split.
        -- intros [H | [H | H]]; discriminate H.
        -- intros _. exists items. split; [reflexivity |]. split; [reflexivity |].
           split; [exact Hvalid | reflexivity].
      * split; [discriminate |]. split.
        -- intros [H | [H | H]]; discriminate H.
        -- discriminate.
      * split; [discriminate |]. split.
        -- intros [H | [H | H]]; discriminate H.
        -- discriminate.
    + unfold import_onload, try_catch.
      rewrite (bind_lift_Ok _ _ _ _ (eq_refl : JSON_parse (JSON (VArr items)) = Ok (VArr items))).
      rewrite (bind_lift_Ok _ _ _ _ Hvalid).
      split; [discriminate |]. split; [reflexivity |]. discriminate.
  - rewrite (import_missing_fields items confirmed st Hvalid).
    split; [discriminate |]. split; [reflexivity |]. discriminate.
  - rewrite (import_throwing_item items e confirmed st Hvalid).
    split; [discriminate |]. split; [reflexivity |]. discriminate.
  - unfold import_onload, try_catch.
    rewrite (bind_lift_Ok _ _ _ _ (eq_refl : JSON_parse (JSON (VArr items)) = Ok (VArr items))).
    unfold bind, lift. rewrite Hvalid.
    split; [discriminate |]. split; [reflexivity |]. discriminate.
Qed.

Lemma import_onload_outcomes_example :
  snd (import_onload (JSON (VNum 5)) true (mkState [stock_of aapl] aaplQuoted None [] [])) =
  mkState [stock_of aapl] aaplQuoted None [] [].
Proof.
  apply (import_onload_outcomes (JSON (VNum 5)) true
           (mkState [stock_of aapl] aaplQuoted None [] [])).
  right. left. reflexivity.
Defined.

(** X12.  The validation of an imported element looks at nothing but the
    truthiness of three fields: an object passes exactly when its [symbol],
    [qty] and [cost] are all truthy, whatever their types; a Number, a text, a
    boolean or a list fails; [null] makes the validation throw. *)
Theorem validItem_truthiness :
  (forall props,
     validItem (VObj props) =
     Ok (truthy (default VUndefined (own "symbol" props)) &&
         truthy (default VUndefined (own "qty" props)) &&
         truthy (default VUndefined (own "cost" props)))) /\
  (forall b x s elems,
     validItem (VBool b) = Ok false /\ validItem (VNum x) = Ok false /\
     validItem (VStr s) = Ok false /\ validItem (VArr elems) = Ok false) /\
  validItem VNull = Throw TypeError /\ validItem VUndefined = Throw TypeError.
Proof.
  split; [| split; [| split; reflexivity]].
  - intros props. unfold validItem, get, js_and. cbn [rbind].
    destruct (truthy (default VUndefined (own "symbol" props))) eqn:Hs;
      destruct (truthy (default VUndefined (own "qty" props))) eqn:Hq;
      destruct (truthy (default VUndefined (own "cost" props))) eqn:Hc;
      repeat first [rewrite Hs | rewrite Hq | rewrite Hc | progress cbn [rbind andb]];
      reflexivity.
  - intros b x s elems. repeat split.
Qed.

(** ** Beyond the claims: persistence *)

Lemma to_json_storable p : storable p -> to_json (stock_of p) = stock_of p.
Proof.
  intros (Hq & Hq' & Hc & Hc'). unfold stock_of. cbn [to_json].
  rewrite (json_number_exact _ Hq Hq'). destruct Hc' as [Hc' | Hc'].
  - rewrite (json_number_exact _ Hc Hc'). reflexivity.
  - rewrite Hc'. reflexivity.
Qed.

Lemma to_json_storable_ledger (ps : list Position) :
  Forall storable ps -> List.map to_json (stock_of <$> ps) = stock_of <$> ps.
Proof.
  induction 1 as [| p ps Hp _ IH]; [reflexivity |].
  change (stock_of <$> p :: ps) with (stock_of p :: (stock_of <$> ps)).
  cbn [List.map]. rewrite (to_json_storable _ Hp), IH. reflexivity.
Qed.

(** X13.  Saving and reloading gives the ledger back: for a well-typed ledger
    whose quantities are finite and above 0 and whose costs are finite and
    above 0 or 0, the value the page starts from after [saveData] is the
    ledger itself, the empty ledger included. *)
Theorem saveData_then_loadPortfolio st (ps : list Position) :
  portfolio st = stock_of <$> ps ->
  Forall storable ps ->
  loadPortfolio (localStorage (snd (saveData st))) = Ok (VArr (portfolio st)).
Proof.
  intros Hport Hall. rewrite saveData_run. cbn [snd localStorage set_localStorage].
  unfold JSON_stringify, loadPortfolio. cbn [JSON_parse rbind to_json truthy].
  rewrite Hport, (to_json_storable_ledger ps Hall). reflexivity.
Qed.

Lemma saveData_then_loadPortfolio_example :
  loadPortfolio (localStorage (snd (saveData (mkState [stock_of aapl; stock_of gift] ∅ None [] [])))) =
  Ok (VArr [stock_of aapl; stock_of gift]).
Proof.
  apply (saveData_then_loadPortfolio (mkState [stock_of aapl; stock_of gift] ∅ None [] [])
           [aapl; gift]).
  - reflexivity.
  - repeat constructor; reflexivity.
Defined.

(** ** Beyond the claims: valuation and display *)

Lemma usable_other (prices : gmap string PriceRecord) s r sym :
  sym <> s ->
  usable (<[s := r]> prices) sym = usable prices sym /\
  usable (delete s prices) sym = usable prices sym.
Proof.
  intros Hne. unfold usable.
  rewrite lookup_insert_ne, lookup_delete_ne by congruence. split; reflexivity.
Qed.

Lemma summaryLoop_other (prices prices' : gmap string PriceRecord) (ps : list Position) :
  Forall (fun p => usable prices' (symbol p) = usable prices (symbol p)) ps ->
  forall acc,
  summaryLoop (record_of <$> prices') acc (stock_of <$> ps) =
  summaryLoop (record_of <$> prices) acc (stock_of <$> ps).
Proof.
  induction 1 as [| p ps Hp _ IH]; intros [[inv cur] has]; [reflexivity |].
  cbn [fmap list_fmap summaryLoop]. rewrite !summaryStep_typed, Hp. cbn [rbind].
  apply IH.
Qed.

(** X14.  The summary depends on the cache through the symbols of the ledger
    only: writing or removing the record of a symbol the ledger does not hold,
    such as the stale record of a deleted Position, changes no figure. *)
Theorem summarize_ignores_other_symbols (ps : list Position)
    (prices : gmap string PriceRecord) s r :
  s ∉ symbol <$> ps ->
  summarize (stock_of <$> ps) (record_of <$> <[s := r]> prices) =
    summarize (stock_of <$> ps) (record_of <$> prices) /\
  summarize (stock_of <$> ps) (record_of <$> delete s prices) =
    summarize (stock_of <$> ps) (record_of <$> prices).
Proof.
  intros Hs.
  assert (Hall : Forall (fun p => symbol p <> s) ps).
  { apply Forall_forall. intros p Hp Heq. apply Hs. rewrite <- Heq.
    apply list_elem_of_fmap. exists p. split; [reflexivity | exact Hp]. }
  unfold summarize. split.
  - rewrite (summaryLoop_other prices (<[s := r]> prices) ps); [reflexivity |].
    eapply Forall_impl; [exact Hall |]. intros p Hp. cbv beta.
    apply (usable_other prices s r (symbol p) Hp).
  - rewrite (summaryLoop_other prices (delete s prices) ps); [reflexivity |].
    eapply Forall_impl; [exact Hall |]. intros p Hp. cbv beta.
    apply (usable_other prices s r (symbol p) Hp).
Qed.

Lemma summarize_ignores_other_symbols_example :
  summarize [stock_of msft] aaplQuoted = summarize [stock_of msft] (record_of <$> ∅).
Proof.
  refine (proj1 (summarize_ignores_other_symbols [msft] ∅ "AAPL"
                   (mkPriceRecord (Some 180%float) 5 VUndefined VUndefined) _)).
  cbn. intros H. apply list_elem_of_singleton in H. discriminate H.
Defined.

(** X15.  The row of a Position whose symbol has a price above 0 in the cache
    shows that price; its value is price times quantity, shown when above 0;
    its profit is that value less cost times quantity, in the positive class
    when it is at least 0 and in the negative class otherwise. *)
Theorem renderRow_priced (prices : gmap string PriceRecord) p x :
  usable prices (symbol p) = Some x ->
  renderRow (record_of <$> prices) (stock_of p) =
  Ok (mkRow (Some x)
            (if (0 <? x * qty p)%float then Some (x * qty p)%float else None)
            (Some (x * qty p - cost p * qty p)%float)
            (if (0 <=? x * qty p - cost p * qty p)%float then positive else negative)).
Proof.
  unfold usable. intros Hx. unfold renderRow. rewrite get_symbol.
  cbn [rbind ToString]. rewrite lookup_record, get_qty, get_cost.
  destruct (prices !! symbol p) as [[[y |] ch ts cl] |]; try discriminate Hx.
  cbn [price] in Hx. cbn.
  destruct (0 <? y)%float eqn:Hy; [| discriminate Hx].
  injection Hx as ->. reflexivity.
Qed.

Lemma renderRow_priced_example :
  renderRow aaplQuoted (stock_of aapl) =
  Ok (mkRow (Some 180%float) (Some 1800%float) (Some 300%float) positive).
Proof.
  exact (renderRow_priced
           {["AAPL"%string := mkPriceRecord (Some 180%float) 5 VUndefined VUndefined]}
           aapl 180%float eq_refl).
Defined.

(** ** Beyond the claims: the form *)

(** X16.  A submission with a ticker, a quantity above 0 and a cost of at
    least 0 reaches [addStock]: on a well-typed state the handler returns
    normally with the ledger merged and persisted and one fetch started for
    the ticker. *)
Theorem form_submit_accepts_valid st (ps : list Position)
    (prices : gmap string PriceRecord) ticker q c :
  portfolio st = stock_of <$> ps ->
  stockData st = record_of <$> prices ->
  ticker <> ""%string ->
  (0 <? q)%float = true ->
  (0 <=? c)%float = true ->
  form_submit ticker q c st =
  (Ok Added, mkState (stock_of <$> mergeInto ticker (q, c) ps) (stockData st)
                     (Some (JSON_stringify (VArr (stock_of <$> mergeInto ticker (q, c) ps))))
                     (started st ++ [FetchOne (VStr ticker)]) (trace st)).
Proof.
  intros Hport Hcache Ht Hq Hc. unfold form_submit.
  apply String.eqb_neq in Ht. rewrite Ht, Hq, Hc. cbn [negb andb].
  unfold bind. rewrite (addStock_typed st ps prices ticker q c Hport Hcache).
  reflexivity.
Qed.

Lemma form_submit_accepts_valid_example :
  form_submit "AAPL" 10 0 emptyState =
  (Ok Added, mkState [stock_of gift] ∅ (Some (JSON (VArr [stock_of gift])))
                     [FetchOne (VStr "AAPL")] []).
Proof.
  apply (form_submit_accepts_valid emptyState [] ∅ "AAPL" 10%float 0%float).
  - reflexivity.
  - reflexivity.
  - discriminate.
  - reflexivity.
  - reflexivity.
Defined.

(** X17.  A submission with no ticker, or whose quantity or cost did not parse
    to a number, is rejected like a non-positive quantity: nothing is added
    and the state is as it was. *)
Theorem form_submit_rejects_unparsed ticker q c st :
  ticker = ""%string \/ q = nan \/ c = nan ->
  form_submit ticker q c st = (Ok InvalidInput, st).
Proof.
  intros [-> | [-> | ->]]; unfold form_submit.
  - reflexivity.
  - cbn. rewrite andb_false_r. reflexivity.
  - cbn. rewrite andb_false_r. reflexivity.
Qed.

Lemma form_submit_rejects_unparsed_example :
  form_submit "AAPL" nan 150 emptyState = (Ok InvalidInput, emptyState).
Proof.
  apply form_submit_rejects_unparsed. right. left. reflexivity.
Defined.

(** ** Beyond the claims: the chart *)

(** X18.  Whatever the two series hold, when the loop of [loadChart] ends the
    chart has as many labels as prices, none of its prices is [null] or
    [undefined], its prices are prices of the history, in their order, and it
    has at most one point per timestamp. *)
Theorem cleanSeries_sound prices timestamps : forall i labels data,
  cleanSeries prices i timestamps = Ok (labels, data) ->
  length labels = length data /\
  Forall drawable data /\
  data `sublist_of` drop i prices /\
  length data <= length timestamps.
Proof.
  induction timestamps as [| t rest IH]; intros i labels data Hrun.
  - injection Hrun as <- <-. repeat split; [constructor | apply sublist_nil_l | lia].
  - cbn [cleanSeries] in Hrun.
    assert (Hskip : cleanSeries prices (S i) rest = Ok (labels, data) ->
                    length labels = length data /\ Forall drawable data /\
                    data `sublist_of` drop i prices /\ length data <= length (t :: rest)).
    { intros Hrest. destruct (IH _ _ _ Hrest) as (Hlen & Hall & Hsub & Hle).
      repeat split; [exact Hlen | exact Hall | | cbn; lia].
      destruct (prices !! i) as [x |] eqn:Hx.
      - rewrite (drop_S _ _ _ Hx). apply sublist_cons. exact Hsub.
      - apply lookup_ge_None in Hx. rewrite drop_ge in Hsub by lia.
        apply sublist_nil_r in Hsub. subst data. apply sublist_nil_l. }
    assert (Hkeep : forall price,
              prices !! i = Some price -> drawable price ->
              (let? ms := js_mul t (VNum 1000) in
               let? r := cleanSeries prices (S i) rest in
               Ok (ms :: fst r, price :: snd r)) = Ok (labels, data) ->
              length labels = length data /\ Forall drawable data /\
              data `sublist_of` drop i prices /\ length data <= length (t :: rest)).
    { intros price Hx Hdraw Hk.
      destruct (js_mul t (VNum 1000)) as [ms | e |]; try discriminate Hk.
      cbn [rbind] in Hk.
      destruct (cleanSeries prices (S i) rest) as [[labels' data'] | e |] eqn:Hrest;
        try discriminate Hk.
      cbn [rbind fst snd] in Hk. injection Hk as <- <-.
      destruct (IH _ _ _ Hrest) as (Hlen & Hall & Hsub & Hle).
      repeat split; [cbn; lia | constructor; assumption | | cbn; lia].
      rewrite (drop_S _ _ _ Hx). apply sublist_skip. exact Hsub. }
    destruct (prices !! i) as [price |] eqn:Hx; [| apply Hskip; exact Hrun].
    destruct price; try (apply Hskip; exact Hrun);
      (apply (Hkeep _ eq_refl); [split; discriminate | exact Hrun]).
Qed.

Lemma cleanSeries_sound_example :
  length [1000; 3000]%float = length [VNum 1; VNum 3] /\
  Forall drawable [VNum 1; VNum 3] /\
  [VNum 1; VNum 3] `sublist_of` drop 0 [VNum 1; VNull; VNum 3] /\
  length [VNum 1; VNum 3] <= length [VNum 1; VNum 2; VNum 3; VNum 4].
Proof.
  apply (cleanSeries_sound [VNum 1; VNull; VNum 3] [VNum 1; VNum 2; VNum 3; VNum 4]
           0 [1000; 3000]%float [VNum 1; VNum 3]).
  vm_compute. reflexivity.
Defined.

(** X19.  On a history whose timestamps are Numbers, the loop of [loadChart]
    draws exactly the pairs of a timestamp and the price at the same index
    whose price is neither [null] nor [undefined], each under the date at the
    timestamp times 1000: prices beyond the timestamps and timestamps beyond
    the prices give no point. *)
Theorem cleanSeries_complete prices (ts : list float) : forall i,
  cleanSeries prices i (VNum <$> ts) =
  Ok ((fun tp => (fst tp * 1000)%float) <$> chartPoints ts i prices,
      snd <$> chartPoints ts i prices).
Proof.
  induction ts as [| t ts IH]; intros i; [reflexivity |].
  cbn [fmap list_fmap cleanSeries]. change (list_fmap _ _ VNum ts) with (VNum <$> ts).
  unfold chartPoints in *.
  destruct (prices !! i) as [price |] eqn:Hx.
  - rewrite (drop_S _ _ _ Hx). cbn [zip zip_with List.filter snd].
    destruct price; cbn [isDrawable]; rewrite IH; reflexivity.
  - rewrite IH.
    rewrite (drop_ge prices i) by (apply lookup_ge_None in Hx; exact Hx).
    rewrite (drop_ge prices (S i)) by (apply lookup_ge_None in Hx; lia).
    rewrite !zip_with_nil_r. reflexivity.
Qed.

Lemma get_history r :
  get (record_of r) "history" =
  Ok (VObj [("timestamp", timestamp r); ("close", close r)]%string).
Proof. reflexivity. Qed.

Lemma loadChart_draw st (prices : gmap string PriceRecord) sym r ts cl :
  stockData st = record_of <$> prices ->
  prices !! sym = Some r ->
  timestamp r = VArr ts -> close r = VArr cl ->
  (let* cache' := gets stockData in
   match cache' !! sym with
   | Some data =>
       if truthy data then
         let* history := lift (get data "history") in
         if truthy history then
           let* timestamps := lift (get history "timestamp") in
           let* prices := lift (get history "close") in
           let* series := lift (if truthy timestamps && truthy prices
                                then chartSeries timestamps prices
                                else Ok ([], [])) in
           ret (Some series)
         else ret None
       else ret None
   | None => ret None
   end) st =
  (let? series := cleanSeries cl 0 ts in Ok (Some series), st).
Proof.
  intros Hcache Hr Hts Hcl. rewrite bind_gets, Hcache, lookup_record, Hr.
  cbn [fmap option_fmap option_map]. cbn [truthy record_of].
  step (get_history r). cbn [truthy].
  unfold get at 1. cbn [own String.eqb Ascii.eqb Bool.eqb default].
  rewrite (bind_lift_Ok _ _ _ _ eq_refl). cbv beta.
  unfold get at 1. cbn [own String.eqb Ascii.eqb Bool.eqb default].
  rewrite (bind_lift_Ok _ _ _ _ eq_refl). cbv beta.
  unfold id. rewrite Hts, Hcl. cbn [truthy andb chartSeries].
  unfold bind, lift, ret. destruct (cleanSeries cl 0 ts) as [series | e |]; reflexivity.
Qed.

(** X20.  With a record in the cache for the symbol, [loadChart] makes no
    request: whatever a request would have answered, the state is as it was,
    trace included, and the chart is drawn from the cached history. *)
Theorem loadChart_uses_cache st (prices : gmap string PriceRecord) sym r ts cl response :
  stockData st = record_of <$> prices ->
  prices !! sym = Some r ->
  timestamp r = VArr ts -> close r = VArr cl ->
  loadChart (VStr sym) response st =
  (let? series := cleanSeries cl 0 ts in Ok (Some series), st).
Proof.
  intros Hcache Hr Hts Hcl. unfold loadChart.
  step (eq_refl : ToString (VStr sym) = Ok sym).
  rewrite bind_gets, Hcache, lookup_record, Hr.
  cbn [fmap option_fmap option_map]. cbn [truthy record_of].
  rewrite ?bind_assoc.
  match goal with
  | |- context [bind (lift ?x) _ _] => rewrite (bind_lift_Ok x false _ _ eq_refl)
  end.
  cbv beta iota.
  rewrite bind_ret.
  apply (loadChart_draw st prices sym r ts cl Hcache Hr Hts Hcl).
Qed.

Lemma loadChart_uses_cache_example :
  loadChart (VStr "AAPL") (Throw NetworkError)
    (mkState [stock_of aapl]
       (record_of <$> {["AAPL"%string :=
          mkPriceRecord (Some 180%float) 5 (VArr [VNum 1; VNum 2]) (VArr [VNull; VNum 179])]})
       None [] []) =
  (Ok (Some ([2000%float], [VNum 179])),
   mkState [stock_of aapl]
       (record_of <$> {["AAPL"%string :=
          mkPriceRecord (Some 180%float) 5 (VArr [VNum 1; VNum 2]) (VArr [VNull; VNum 179])]})
       None [] []).
Proof.
  apply (loadChart_uses_cache _
           {["AAPL"%string :=
              mkPriceRecord (Some 180%float) 5 (VArr [VNum 1; VNum 2]) (VArr [VNull; VNum 179])]}
           "AAPL"
           (mkPriceRecord (Some 180%float) 5 (VArr [VNum 1; VNum 2]) (VArr [VNull; VNum 179]))
           [VNum 1; VNum 2] [VNull; VNum 179] (Throw NetworkError)).
  - reflexivity.
  - reflexivity.
  - reflexivity.
  - reflexivity.
Defined.

(** X21.  With no record in the cache for the symbol, [loadChart] makes one
    request.  When it fails, nothing is drawn and the cache stays without a
    record; when it is answered, the record is written and the chart is
    drawn from its history. *)
Theorem loadChart_fetches_once st (ps : list Position)
    (prices : gmap string PriceRecord) sym response :
  portfolio st = stock_of <$> ps ->
  stockData st = record_of <$> prices ->
  prices !! sym = None ->
  (answers response None ->
   loadChart (VStr sym) response st =
   (Ok None, log_event (EvSettled sym) (log_event (EvRequest sym) st))) /\
  (forall r ts cl,
     answers response (Some r) ->
     timestamp r = VArr ts -> close r = VArr cl ->
     loadChart (VStr sym) response st =
     (let? series := cleanSeries cl 0 ts in Ok (Some series),
      set_stockData (record_of <$> <[sym := r]> prices)
        (log_event (EvSettled sym) (log_event (EvRequest sym) st)))).
Proof.
  intros Hport Hcache Hnone.
  assert (Hstart :
            loadChart (VStr sym) response st =
            bind (fetchStockData (VStr sym) response)
                 (fun _ =>
                    let* cache' := gets stockData in
                    match cache' !! sym with
                    | Some data =>
                        if truthy data then
                          let* history := lift (get data "history") in
                          if truthy history then
                            let* timestamps := lift (get history "timestamp") in
                            let* prices := lift (get history "close") in
                            let* series := lift (if truthy timestamps && truthy prices
                                                 then chartSeries timestamps prices
                                                 else Ok ([], [])) in
                            ret (Some series)
                          else ret None
                        else ret None
                    | None => ret None
                    end) st).
  { unfold loadChart.
    step (eq_refl : ToString (VStr sym) = Ok sym).
    rewrite bind_gets, Hcache, lookup_record, Hnone.
    cbn [fmap option_fmap option_map].
    rewrite (bind_lift_Ok _ _ _ _ eq_refl). reflexivity. }
  split.
  - intros Hans. rewrite Hstart. unfold bind at 1.
    rewrite (fetchStockData_failed st sym response Hans). cbv beta iota.
    rewrite bind_gets. cbn [stockData log_event].
    rewrite Hcache, lookup_record, Hnone. reflexivity.
  - intros r ts cl Hans Hts Hcl. rewrite Hstart. unfold bind at 1.
    rewrite (fetchStockData_answered st ps prices sym response r Hport Hcache Hans).
    cbv beta iota.
    match goal with
    | |- _ ?s = _ =>
        apply (loadChart_draw s (<[sym := r]> prices) sym r ts cl eq_refl
                 (lookup_insert_eq prices sym r) Hts Hcl)
    end.
Qed.

Lemma loadChart_fetches_once_example :
  loadChart (VStr "MSFT") (Throw NetworkError)
            (mkState [stock_of msft] aaplQuoted None [] []) =
  (Ok None, mkState [stock_of msft] aaplQuoted None []
                    [EvRequest "MSFT"; EvSettled "MSFT"]).
Proof.
  apply (loadChart_fetches_once (mkState [stock_of msft] aaplQuoted None [] []) [msft]
           {["AAPL"%string := mkPriceRecord (Some 180%float) 5 VUndefined VUndefined]}
           "MSFT" (Throw NetworkError)).
  - reflexivity.
  - reflexivity.
  - reflexivity.
  - exists NetworkError. reflexivity.
Defined.

(** ** Beyond the claims: startup *)

(** X22.  At startup, on a well-typed state, the page is drawn without
    failure and nothing is written; a refresh of all prices is started when
    the ledger holds a Position, and no request is made for an empty ledger. *)
Theorem DOMContentLoaded_starts_refresh st (ps : list Position)
    (prices : gmap string PriceRecord) :
  portfolio st = stock_of <$> ps ->
  stockData st = record_of <$> prices ->
  DOMContentLoaded st =
  (Ok tt, match ps with
          | [] => st
          | _ :: _ => spawn_task FetchAll st
          end).
Proof.
  intros Hport Hcache. unfold DOMContentLoaded.
  unfold bind at 1. rewrite (renderTable_typed st ps prices Hport Hcache).
  unfold bind at 1. rewrite (updateSummary_typed st ps prices Hport Hcache).
  rewrite bind_gets, Hport. destruct ps; reflexivity.
Qed.

Lemma DOMContentLoaded_starts_refresh_example :
  DOMContentLoaded (mkState [stock_of aapl] ∅ None [] []) =
  (Ok tt, mkState [stock_of aapl] ∅ None [FetchAll] []).
Proof.
  exact (DOMContentLoaded_starts_refresh (mkState [stock_of aapl] ∅ None [] []) [aapl] ∅
           eq_refl eq_refl).
Defined.
